(** * Evil-Droid APK generator: a shallow embedding of [generate_apk.py]

    The development follows the Python source function by function.

    - Python [str] values are Rocq strings; a character is read as the
      Unicode code point of the same number (the Latin-1 range).
    - [bytes] and [bytearray] values are lists of integers in [0, 256).
    - The file system is a finite map from paths to file contents.  A path is
      either inside the directory made by [tempfile.TemporaryDirectory] for
      the current run or an absolute path on the rest of the disk; the name
      of that directory is new, so no other path leads into it.
      Directories are implicit, so [mkdir] has nothing to do, and permission
      or disk errors are outside the model.
    - An archive is kept as the list of its members in directory order; the
      DEFLATE encoding is not modelled.
    - Every external program ([subprocess.run]) is an oracle that reads the
      file system, may write the one output file named on its command line
      or leave it alone, and then either raises or returns an exit status.
    - Methods that call external programs live in a state-and-exception monad
      over the file system and the sequence of external interactions.
    - Console output ([print]) is not modelled. *)

From Stdlib Require Import ZArith Ascii String List Lia Bool.
From stdpp Require Import base option list strings gmap.

Local Open Scope string_scope.
Local Open Scope list_scope.
Local Open Scope Z_scope.

(** ** Python [str] methods used by the source *)

Module Str.

Definition chars (s : string) : list ascii := list_ascii_of_string s.
Definition of_chars (cs : list ascii) : string := string_of_list_ascii cs.

Definition code (c : ascii) : Z := Z.of_N (N_of_ascii c).

Definition in_range (lo hi : Z) (c : ascii) : bool :=
  (lo <=? code c) && (code c <=? hi).

(** [c.isdecimal()]: the only decimal digits below U+0100 are 0-9. *)
Definition isdecimal (c : ascii) : bool := in_range 0x30 0x39 c.

(** [c.isalnum()]: letters, decimal digits, and the characters with a
    numeric value (superscripts and vulgar fractions) of the first 256
    code points. *)
Definition isalnum (c : ascii) : bool :=
  in_range 0x30 0x39 c || in_range 0x41 0x5a c || in_range 0x61 0x7a c
  || existsb (Z.eqb (code c)) [0xaa; 0xb2; 0xb3; 0xb5; 0xb9; 0xba; 0xbc; 0xbd; 0xbe]
  || in_range 0xc0 0xd6 c || in_range 0xd8 0xf6 c || in_range 0xf8 0xff c.

(** [c.isspace()] *)
Definition isspace (c : ascii) : bool :=
  in_range 0x09 0x0d c || in_range 0x1c 0x20 c
  || (code c =? 0x85) || (code c =? 0xa0).

Definition eqc (a b : ascii) : bool := Ascii.eqb a b.

Fixpoint is_prefix (p s : list ascii) : bool :=
  match p, s with
  | [], _ => true
  | a :: p', b :: s' => eqc a b && is_prefix p' s'
  | _ :: _, [] => false
  end.

(** [s.startswith(p)] and [s.endswith(p)] *)
Definition startswith (s p : string) : bool := is_prefix (chars p) (chars s).
Definition endswith (s p : string) : bool :=
  is_prefix (rev (chars p)) (rev (chars s)).

(** [s.replace(old, new)] for a non-empty [old], scanning left to right;
    [skip] counts the characters of a match that are still to be dropped. *)
Fixpoint replace_go (old new s : list ascii) (skip : nat) : list ascii :=
  match s with
  | [] => []
  | c :: s' =>
      match skip with
      | S k => replace_go old new s' k
      | O =>
          if is_prefix old s
          then new ++ replace_go old new s' (length old - 1)
          else c :: replace_go old new s' 0
      end
  end.

(** With an empty [old], Python puts [new] around every character. *)
Definition replace (s old new : string) : string :=
  match chars old with
  | [] => of_chars (chars new ++ flat_map (fun c => c :: chars new) (chars s))
  | o => of_chars (replace_go o (chars new) (chars s) 0)
  end.

(** [s.split(sep)] for a one-character separator: never the empty list. *)
Fixpoint split_go (sep : ascii) (cur : list ascii) (s : list ascii) : list string :=
  match s with
  | [] => [of_chars (rev cur)]
  | c :: s' =>
      if eqc c sep then of_chars (rev cur) :: split_go sep [] s'
      else split_go sep (c :: cur) s'
  end.

Definition split (s : string) (sep : ascii) : list string :=
  split_go sep [] (chars s).

(** [s.strip()] *)
Fixpoint lstrip (s : list ascii) : list ascii :=
  match s with
  | c :: s' => if isspace c then lstrip s' else s
  | [] => []
  end.

Definition strip (s : list ascii) : list ascii := rev (lstrip (rev (lstrip s))).

(** Decimal digits with single underscores allowed between digits. *)
Fixpoint int_digits (acc : Z) (after_underscore : bool) (ds : list ascii)
  : option Z :=
  match ds with
  | [] => if after_underscore then None else Some acc
  | c :: ds' =>
      if isdecimal c then int_digits (10 * acc + (code c - 0x30)) false ds'
      else if eqc c "_" then
        if after_underscore then None else int_digits acc true ds'
      else None
  end.

Definition int_unsigned (ds : list ascii) : option Z :=
  match ds with
  | c :: ds' =>
      if isdecimal c then int_digits (code c - 0x30) false ds' else None
  | [] => None
  end.

(** [int(s)]: [None] stands for [ValueError]. *)
Definition int (s : string) : option Z :=
  match strip (chars s) with
  | c :: ds =>
      if eqc c "-" then Z.opp <$> int_unsigned ds
      else if eqc c "+" then int_unsigned ds
      else int_unsigned (c :: ds)
  | [] => None
  end.

(** Truth value of an [Optional[str]]. *)
Definition truthy (o : option string) : bool :=
  match o with
  | Some s => negb (String.eqb s "")
  | None => false
  end.

(** The double-quote character. *)
Definition q : string := String (ascii_of_nat 34) EmptyString.

(** Lines joined by newlines. *)
Definition nl : string := String (ascii_of_nat 10) EmptyString.
Definition unlines (ls : list string) : string := String.concat nl ls.

End Str.

(** ** Byte strings and [zlib.adler32] *)

Module Bytes.

(** [bytes]: each element is an integer in [range(256)]. *)
Definition bytes := list Z.

Definition is_byte (b : Z) : bool := (0 <=? b) && (b <? 256).

Definition wf (bs : bytes) : bool := forallb is_byte bs.

(** [int.to_bytes(n, 'little')] for a non-negative integer that fits. *)
Fixpoint to_bytes_little (n : nat) (x : Z) : bytes :=
  match n with
  | O => []
  | S n' => Z.land x 0xff :: to_bytes_little n' (Z.shiftr x 8)
  end.

(** [int.from_bytes(bs, 'little')]. *)
Fixpoint from_bytes_little (bs : bytes) : Z :=
  match bs with
  | [] => 0
  | b :: bs' => Z.lor b (Z.shiftl (from_bytes_little bs') 8)
  end.

(** [bs[i:j]] for [0 <= i <= j]. *)
Definition slice (i j : nat) (bs : bytes) : bytes :=
  firstn (j - i) (skipn i bs).

(** [bs[i:j] = new] on a [bytearray]. *)
Definition set_slice (i j : nat) (new bs : bytes) : bytes :=
  firstn i bs ++ new ++ skipn j bs.

(** The Adler-32 modulus, the largest prime below 2^16. *)
Definition BASE : Z := 65521.

(** One step of the rolling checksum on the pair (a, b). *)
Definition adler_step (ab : Z * Z) (byte : Z) : Z * Z :=
  let a := (fst ab + byte) mod BASE in
  let b := (snd ab + a) mod BASE in
  (a, b).

(** [zlib.adler32(data)] with the default starting value 1 (RFC 1950). *)
Definition adler32 (data : bytes) : Z :=
  let '(a, b) := fold_left adler_step data (1, 0) in
  Z.lor (Z.shiftl b 16) a.

End Bytes.

Import Bytes.

(** ** The placeholder bytecode container *)

(** [APKGenerator.MINIMAL_DEX_HEADER] *)
Definition MINIMAL_DEX_HEADER : bytes :=
  [ 0x64; 0x65; 0x78; 0x0a    (* dex\n *)
  ; 0x30; 0x33; 0x35; 0x00 ]  (* 035\0 *).

(** The [bytearray] literal of [_write_minimal_dex_placeholder], before the
    checksum is filled in, four bytes to a row. *)
Definition dex_data0 : bytes := concat
  [ [0x64; 0x65; 0x78; 0x0a]      (* magic: dex\n *)
  ; [0x30; 0x33; 0x35; 0x00]      (* version: 035\0 *)
  ; [0x00; 0x00; 0x00; 0x00]      (* checksum, calculated below *)
  ; [0x00; 0x00; 0x00; 0x00]      (* SHA-1 signature, 20 bytes *)
  ; [0x00; 0x00; 0x00; 0x00]
  ; [0x00; 0x00; 0x00; 0x00]
  ; [0x00; 0x00; 0x00; 0x00]
  ; [0x00; 0x00; 0x00; 0x00]
  ; [0x70; 0x00; 0x00; 0x00]      (* file size: 112 bytes *)
  ; [0x70; 0x00; 0x00; 0x00]      (* header size: 112 bytes *)
  ; [0x78; 0x56; 0x34; 0x12]      (* endian tag *)
  ; [0x00; 0x00; 0x00; 0x00]      (* link size *)
  ; [0x00; 0x00; 0x00; 0x00]      (* link off *)
  ; [0x00; 0x00; 0x00; 0x00]      (* map off *)
  ; [0x00; 0x00; 0x00; 0x00]      (* string ids size *)
  ; [0x00; 0x00; 0x00; 0x00]      (* string ids off *)
  ; [0x00; 0x00; 0x00; 0x00]      (* type ids size *)
  ; [0x00; 0x00; 0x00; 0x00]      (* type ids off *)
  ; [0x00; 0x00; 0x00; 0x00]      (* proto ids size *)
  ; [0x00; 0x00; 0x00; 0x00]      (* proto ids off *)
  ; [0x00; 0x00; 0x00; 0x00]      (* field ids size *)
  ; [0x00; 0x00; 0x00; 0x00]      (* field ids off *)
  ; [0x00; 0x00; 0x00; 0x00]      (* method ids size *)
  ; [0x00; 0x00; 0x00; 0x00]      (* method ids off *)
  ; [0x00; 0x00; 0x00; 0x00]      (* class defs size *)
  ; [0x00; 0x00; 0x00; 0x00]      (* class defs off *)
  ; [0x00; 0x00; 0x00; 0x00]      (* data size *)
  ; [0x00; 0x00; 0x00; 0x00] ]    (* data off *).

(** The bytes that [_write_minimal_dex_placeholder] hands to [write_bytes]:
    [checksum = zlib.adler32(bytes(dex_data[12:])) & 0xffffffff] and
    [dex_data[8:12] = checksum.to_bytes(4, 'little')]. *)
Definition minimal_dex_placeholder : bytes :=
  let dex_data := dex_data0 in
  let checksum := Z.land (adler32 (skipn 12 dex_data)) 0xffffffff in
  set_slice 8 12 (to_bytes_little 4 checksum) dex_data.

(** What a conformance check of the header recomputes: the stored field and
    the checksum of everything after it. *)
Definition stored_checksum (dex : bytes) : Z := from_bytes_little (slice 8 12 dex).
Definition recomputed_checksum (dex : bytes) : Z :=
  Z.land (adler32 (skipn 12 dex)) 0xffffffff.

(** Filling the checksum field of any container of at least 12 bytes the way
    [_write_minimal_dex_placeholder] does. *)
Definition fill_checksum (dex_data : bytes) : bytes :=
  let checksum := Z.land (adler32 (skipn 12 dex_data)) 0xffffffff in
  set_slice 8 12 (to_bytes_little 4 checksum) dex_data.

(** ** Paths, file contents and the file system *)

(** A [pathlib.Path]: below the run's temporary directory ([Work]) or
    absolute on the rest of the disk ([Disk]); components from the root. *)
Inductive path :=
  | Work (rel : list string)
  | Disk (abs : list string).

#[global] Instance path_eq_dec : EqDecision path.
Proof. solve_decision. Defined.

#[global] Instance path_countable : Countable path.
Proof.
  refine (inj_countable'
            (fun p => match p with Work l => inl l | Disk l => inr l end)
            (fun x => match x with inl l => Work l | inr l => Disk l end) _).
  intros []; reflexivity.
Defined.

(** One component of a path string: an empty one and a single dot vanish and
    two dots step up, as the operating system resolves them when the path is
    used. *)
Definition norm_step (acc : list string) (c : string) : list string :=
  if String.eqb c "" || String.eqb c "." then acc
  else if String.eqb c ".." then removelast acc
  else acc ++ [c].

(** [base / s], where an absolute [s] replaces [base]. *)
Definition resolve (base : list string) (s : string) : list string :=
  fold_left norm_step (Str.split s "/")
            (if Str.startswith s "/" then [] else base).

(** [p / s] *)
Definition join (p : path) (s : string) : path :=
  match p with
  | Work l => Work (resolve l s)
  | Disk l => Disk (resolve l s)
  end.

Infix "//" := join (at level 40, left associativity).

(** [str(p)] is only needed to tell paths apart, so it is not modelled. *)

(** The contents of a file. *)
#[warnings="-register-all"]
Inductive content :=
  | Text (s : string)                          (* written by [write_text] *)
  | Binary (bs : bytes)                        (* written by [write_bytes] *)
  | Archive (members : list (string * content)).  (* a ZIP file *)

Abbreviation member := (string * content)%type.

Abbreviation filesystem := (gmap path content).

(** [p.exists()] for a path that the program uses as a file. *)
Definition is_file (fs : filesystem) (p : path) : bool :=
  match fs !! p with Some _ => true | None => false end.

(** The remainder of [l] after the prefix [d]. *)
Fixpoint drop_prefix (d l : list string) : option (list string) :=
  match d, l with
  | [], _ => Some l
  | a :: d', b :: l' => if String.eqb a b then drop_prefix d' l' else None
  | _ :: _, [] => None
  end.

(** The name of the entry of directory [d] through which [p] is reached. *)
Definition entry_of (d : list string) (p : path) : option string :=
  match p with
  | Disk l => l' ← drop_prefix d l; head l'
  | Work _ => None
  end.

(** [d.iterdir()], as names; the order is the file system's own. *)
Definition iterdir (fs : filesystem) (d : list string) : list string :=
  remove_dups (omap (entry_of d) (map fst (map_to_list fs))).

(** [d.exists()] for a path that the program uses as a directory. *)
Definition is_dir (fs : filesystem) (d : list string) : bool :=
  match iterdir fs d with [] => false | _ :: _ => true end.

(** ** The environment of a run *)

(** Exceptions that the source names or that its library calls raise. *)
Inductive exn :=
  | FileNotFoundError
  | TimeoutExpired
  | CalledProcessError
  | BadZipFile
  | OSError.

(** The external programs, one per [subprocess.run] call site. *)
Inductive Tool :=
  | javac | d8 | dx
  | smali_assemble | smali_a
  | apktool_b
  | aapt_package
  | keytool_genkey
  | jarsigner
  | zipalign.

(** What a program does to its output file. *)
Inductive effect :=
  | Keep
  | Put (c : content).

(** How a [subprocess.run] call ends. *)
Inductive outcome :=
  | Raises (e : exn) (w : effect)
  | Returns (returncode : Z) (w : effect).

Record Env := {
  which : string -> option string;      (* [shutil.which] *)
  environ : string -> option string;    (* [os.environ.get] *)
  home : list string;                   (* [Path.home()] *)
  cwd : list string;                    (* [Path.cwd()] *)
  script_dir : list string;             (* [Path(__file__).parent.resolve()] *)
  tool : Tool -> filesystem -> outcome  (* the external programs *)
}.

(** ** Sorting as [list.sort(key=...)] does: stable *)

Section Sort.
Context {A : Type} (le : A -> A -> bool).

Fixpoint insert_by (x : A) (l : list A) : list A :=
  match l with
  | [] => [x]
  | y :: l' => if le x y then x :: l else y :: insert_by x l'
  end.

Definition sort_by (l : list A) : list A := foldr insert_by [] l.
End Sort.

(** ** [APKGenerator._find_android_jar] *)

(** The sort key [(0 if 23 <= x[0] <= 30 else 1, x[0])], compared as tuples. *)
Definition platform_key (x : Z * path) : Z * Z :=
  (if (23 <=? fst x) && (fst x <=? 30) then 0 else 1, fst x).

Definition key_le (a b : Z * Z) : bool :=
  (fst a <? fst b) || ((fst a =? fst b) && (snd a <=? snd b)).

Definition platform_le (x y : Z * path) : bool :=
  key_le (platform_key x) (platform_key y).

(** The loop over [platforms_dir.iterdir()] followed by the sort. *)
Definition scan_platforms (fs : filesystem) (platforms_dir : list string)
  : option path :=
  let platforms :=
    omap (fun name =>
            let jar_path := Disk (platforms_dir ++ [name; "android.jar"]) in
            if is_file fs jar_path then
              api_level ← Str.int (hd "" (Str.split (Str.replace name "android-" "") "."));
              Some (api_level, jar_path)
            else None)
         (iterdir fs platforms_dir) in
  snd <$> head (sort_by platform_le platforms).

Definition known_paths : list path :=
  [ Disk ["usr"; "lib"; "android-sdk"; "platforms"; "android-23"; "android.jar"]
  ; Disk ["usr"; "lib"; "android-sdk"; "platforms"; "android-28"; "android.jar"]
  ; Disk ["usr"; "lib"; "android-sdk"; "platforms"; "android-30"; "android.jar"]
  ; Disk ["usr"; "share"; "java"; "com.android.android-23.jar"]
  ; Disk ["usr"; "share"; "java"; "com.android.android-28.jar"]
  ; Disk ["usr"; "share"; "java"; "com.android.android-30.jar"] ].

Definition additional_paths (env : Env) : list path :=
  [ Disk (home env) // "Android/Sdk/platforms/android-28/android.jar"
  ; Disk (home env) // "Android/Sdk/platforms/android-30/android.jar"
  ; Disk ["opt"; "android-sdk"; "platforms"; "android-28"; "android.jar"]
  ; Disk ["opt"; "android-sdk"; "platforms"; "android-30"; "android.jar"] ].

(** [a or b] on optional strings. *)
Definition str_or (a b : option string) : option string :=
  if Str.truthy a then a else b.

(** First element of the option that is defined, else the alternative. *)
Definition or_else {A} (o : option A) (alt : option A) : option A :=
  match o with Some _ => o | None => alt end.

Definition _find_android_jar (env : Env) (fs : filesystem) : option path :=
  or_else (find (is_file fs) known_paths)
  (let sdk_platforms_dir := ["usr"; "lib"; "android-sdk"; "platforms"] in
   or_else (if is_dir fs sdk_platforms_dir
            then scan_platforms fs sdk_platforms_dir else None)
  (let android_home :=
     str_or (environ env "ANDROID_HOME") (environ env "ANDROID_SDK_ROOT") in
   or_else (match android_home with
            | Some h =>
                if String.eqb h "" then None
                else
                  let platforms_dir := resolve (cwd env) h ++ ["platforms"] in
                  if is_dir fs platforms_dir
                  then scan_platforms fs platforms_dir else None
            | None => None
            end)
   (find (is_file fs) (additional_paths env)))).

(** ** The monad of a run: state and exceptions *)

(** An external interaction, in the order in which it happens. *)
Inductive event :=
  | Which (name : string)
  | Run (t : Tool).

Record state := {
  fs : filesystem;
  trace : list event
}.

Inductive result (A : Type) :=
  | Ok (a : A)
  | Exn (e : exn).
Arguments Ok {A} a.
Arguments Exn {A} e.

Definition M (A : Type) : Type := state -> result A * state.

Definition ret {A} (a : A) : M A := fun s => (Ok a, s).

Definition bind {A B} (m : M A) (k : A -> M B) : M B :=
  fun s => match m s with
           | (Ok a, s') => k a s'
           | (Exn e, s') => (Exn e, s')
           end.

Definition raise {A} (e : exn) : M A := fun s => (Exn e, s).

(** [try: body except Exception: handler] *)
Definition try_except {A} (body : M A) (handler : M A) : M A :=
  fun s => match body s with
           | (Ok a, s') => (Ok a, s')
           | (Exn _, s') => handler s'
           end.

(** [try: body except (e1, e2, ...): handler] *)
Definition try_except_only {A} (catch : exn -> bool) (body : M A) (handler : M A)
  : M A :=
  fun s => match body s with
           | (Ok a, s') => (Ok a, s')
           | (Exn e, s') => if catch e then handler s' else (Exn e, s')
           end.

Declare Scope run_scope.
Delimit Scope run_scope with run.
Notation "x ← y ; z" := (bind y (fun x => z))
  (at level 20, y at level 100, z at level 200, only parsing) : run_scope.
Notation "y ;; z" := (bind y (fun _ => z))
  (at level 100, z at level 200, only parsing, right associativity) : run_scope.
Local Open Scope run_scope.

Definition get_fs : M filesystem := fun s => (Ok (fs s), s).

Definition set_fs (f : filesystem -> filesystem) : M unit :=
  fun s => (Ok tt, {| fs := f (fs s); trace := trace s |}).

Definition log (e : event) : M unit :=
  fun s => (Ok tt, {| fs := fs s; trace := trace s ++ [e] |}).

(** [p.exists()] *)
Definition path_exists (p : path) : M bool :=
  f ← get_fs; ret (is_file f p).

(** [p.write_text(s)], [p.write_bytes(bs)] *)
Definition write (p : path) (c : content) : M unit := set_fs (insert p c).

(** [p.unlink()] *)
Definition unlink (p : path) : M unit :=
  f ← get_fs;
  if is_file f p then set_fs (delete p) else raise FileNotFoundError.

(** Reading a whole file. *)
Definition read (p : path) : M content :=
  f ← get_fs;
  match f !! p with
  | Some c => ret c
  | None => raise FileNotFoundError
  end.

(** [zipfile.ZipFile(p, 'r')] *)
Definition zip_open (p : path) : M (list member) :=
  c ← read p;
  match c with
  | Archive ms => ret ms
  | _ => raise BadZipFile
  end.

(** [zf.namelist()] *)
Definition namelist (zf : list member) : list string := map fst zf.

(** [name in names] *)
Definition name_in (name : string) (names : list string) : bool :=
  existsb (String.eqb name) names.

(** [zf.read(name)]: of several members with one name the directory keeps
    the last. *)
Definition zip_read (zf : list member) (name : string) : option content :=
  snd <$> find (fun m => String.eqb (fst m) name) (rev zf).

(** [shutil.copy(src, dst)] *)
Definition shutil_copy (src dst : path) : M unit :=
  c ← read src; write dst c.

Definition apply_effect (w : effect) (out : path) (f : filesystem) : filesystem :=
  match w with
  | Keep => f
  | Put c => <[out := c]> f
  end.

Section Run.
Context (env : Env).

(** [shutil.which(name)] *)
Definition shutil_which (name : string) : M (option string) :=
  log (Which name);; ret (which env name).

(** [subprocess.run([...], capture_output=True, text=True, timeout=...)]
    for the program [t] whose command line names the output file [out]. *)
Definition subprocess_run (t : Tool) (out : path) : M Z :=
  log (Run t) ;;
  f ← get_fs;
  match tool env t f with
  | Raises e w => set_fs (apply_effect w out);; raise e
  | Returns rc w => set_fs (apply_effect w out);; ret rc
  end.

(** The same with [check=True]. *)
Definition subprocess_run_check (t : Tool) (out : path) : M Z :=
  rc ← subprocess_run t out;
  if rc =? 0 then ret rc else raise CalledProcessError.

End Run.

(** ** The generator object *)

(** The attributes set by [APKGenerator.__init__]. *)
Record APKGenerator := {
  app_name : string;
  package_name : string;
  output_dir : list string   (* absolute, on the disk *)
}.

(** [for x in l: body(x)] *)
Fixpoint for_each {A} (l : list A) (body : A -> M unit) : M unit :=
  match l with
  | [] => ret tt
  | x :: l' => body x;; for_each l' body
  end.

(** The directory bound by [with tempfile.TemporaryDirectory() as temp_dir]. *)
Definition work_dir : path := Work [].

Definition in_work_dir (p : path) : bool :=
  match p with Work _ => true | Disk _ => false end.

(** Removing the temporary directory with everything below it. *)
Definition rmtree_work (f : filesystem) : filesystem :=
  filter (fun kv => in_work_dir kv.1 = false) f.

(** [with tempfile.TemporaryDirectory() as temp_dir: body]: the directory is
    new and empty when [body] starts and is gone when the block is left,
    whether by [return] or by an exception. *)
Definition TemporaryDirectory {A} (body : M A) : M A :=
  fun s =>
    let '(r, s') := body {| fs := rmtree_work (fs s); trace := trace s |} in
    (r, {| fs := rmtree_work (fs s'); trace := trace s' |}).

Section Methods.
Context (env : Env).

Import Str.

(** [APKGenerator._check_dependencies] *)
Definition _check_dependencies (self : APKGenerator) : M unit :=
  let required_tools := ["aapt"; "zipalign"; "keytool"; "jarsigner"] in
  for_each required_tools (fun t => shutil_which env t;; ret tt).

(** [APKGenerator.__init__] *)
Definition __init__ (app_name package_name output_dir : string) : M APKGenerator :=
  let self := {| app_name := app_name;
                 package_name := package_name;
                 output_dir := resolve (cwd env) output_dir |} in
  _check_dependencies self;;
  ret self.

(** [APKGenerator._create_android_manifest] *)
Definition _create_android_manifest (self : APKGenerator) : string :=
  unlines
    [ "<?xml version=" +:+ q +:+ "1.0" +:+ q +:+ " encoding=" +:+ q +:+ "utf-8" +:+ q +:+ "?>"
    ; "<manifest xmlns:android=" +:+ q +:+ "http://schemas.android.com/apk/res/android" +:+ q
    ; "    package=" +:+ q +:+ package_name self +:+ q
    ; "    android:versionCode=" +:+ q +:+ "1" +:+ q
    ; "    android:versionName=" +:+ q +:+ "1.0" +:+ q +:+ ">"
    ; ""
    ; "    <uses-sdk"
    ; "        android:minSdkVersion=" +:+ q +:+ "16" +:+ q
    ; "        android:targetSdkVersion=" +:+ q +:+ "28" +:+ q +:+ " />"
    ; ""
    ; "    <uses-permission android:name=" +:+ q +:+ "android.permission.INTERNET" +:+ q +:+ " />"
    ; ""
    ; "    <application"
    ; "        android:label=" +:+ q +:+ app_name self +:+ q
    ; "        android:allowBackup=" +:+ q +:+ "true" +:+ q +:+ ">"
    ; ""
    ; "        <activity"
    ; "            android:name=" +:+ q +:+ ".MainActivity" +:+ q
    ; "            android:label=" +:+ q +:+ app_name self +:+ q
    ; "            android:exported=" +:+ q +:+ "true" +:+ q +:+ ">"
    ; "            <intent-filter>"
    ; "                <action android:name=" +:+ q +:+ "android.intent.action.MAIN" +:+ q +:+ " />"
    ; "                <category android:name=" +:+ q +:+ "android.intent.category.LAUNCHER" +:+ q +:+ " />"
    ; "            </intent-filter>"
    ; "        </activity>"
    ; ""
    ; "    </application>"
    ; "</manifest>" ].

(** [APKGenerator._create_main_activity_java] *)
Definition _create_main_activity_java (self : APKGenerator) : string :=
  unlines
    [ "package " +:+ package_name self +:+ ";"
    ; ""
    ; "import android.app.Activity;"
    ; "import android.os.Bundle;"
    ; "import android.widget.TextView;"
    ; "import android.view.Gravity;"
    ; "import android.graphics.Color;"
    ; ""
    ; "public class MainActivity extends Activity {"
    ; "    @Override"
    ; "    protected void onCreate(Bundle savedInstanceState) {"
    ; "        super.onCreate(savedInstanceState);"
    ; ""
    ; "        TextView textView = new TextView(this);"
    ; "        textView.setText(" +:+ q +:+ app_name self +:+ "\n\nGenerated by Evil-Droid Framework\n\nThis is a demonstration APK." +:+ q +:+ ");"
    ; "        textView.setTextSize(20);"
    ; "        textView.setGravity(Gravity.CENTER);"
    ; "        textView.setTextColor(Color.BLACK);"
    ; "        textView.setBackgroundColor(Color.WHITE);"
    ; "        textView.setPadding(50, 50, 50, 50);"
    ; ""
    ; "        setContentView(textView);"
    ; "    }"
    ; "}" ].

(** [APKGenerator._create_strings_xml] *)
Definition _create_strings_xml (self : APKGenerator) : string :=
  unlines
    [ "<?xml version=" +:+ q +:+ "1.0" +:+ q +:+ " encoding=" +:+ q +:+ "utf-8" +:+ q +:+ "?>"
    ; "<resources>"
    ; "    <string name=" +:+ q +:+ "app_name" +:+ q +:+ ">" +:+ app_name self +:+ "</string>"
    ; "</resources>" ].

(** The assembly source written by [_create_minimal_dex]. *)
Definition smali_code (self : APKGenerator) (package_path : string) : string :=
  unlines
    [ ".class public L" +:+ package_path +:+ "/MainActivity;"
    ; ".super Landroid/app/Activity;"
    ; ".source " +:+ q +:+ "MainActivity.java" +:+ q
    ; ""
    ; "# Default constructor"
    ; ".method public constructor <init>()V"
    ; "    .registers 1"
    ; ""
    ; "    invoke-direct {p0}, Landroid/app/Activity;-><init>()V"
    ; ""
    ; "    return-void"
    ; ".end method"
    ; ""
    ; "# onCreate method - called when Activity is created"
    ; ".method protected onCreate(Landroid/os/Bundle;)V"
    ; "    .registers 5"
    ; "    .param p1, " +:+ q +:+ "savedInstanceState" +:+ q +:+ "    # Landroid/os/Bundle;"
    ; ""
    ; "    # Call super.onCreate()"
    ; "    invoke-super {p0, p1}, Landroid/app/Activity;->onCreate(Landroid/os/Bundle;)V"
    ; ""
    ; "    # Create a new TextView"
    ; "    new-instance v0, Landroid/widget/TextView;"
    ; "    invoke-direct {v0, p0}, Landroid/widget/TextView;-><init>(Landroid/content/Context;)V"
    ; ""
    ; "    # Set the text content"
    ; "    const-string v1, " +:+ q +:+ app_name self +:+ "\n\nWelcome to Evil-Droid Framework\n\nThis is a demonstration APK\ngenerated for educational purposes." +:+ q
    ; "    invoke-virtual {v0, v1}, Landroid/widget/TextView;->setText(Ljava/lang/CharSequence;)V"
    ; ""
    ; "    # Set text size to 20sp"
    ; "    const/high16 v1, 0x41a00000    # 20.0f"
    ; "    invoke-virtual {v0, v1}, Landroid/widget/TextView;->setTextSize(F)V"
    ; ""
    ; "    # Set gravity to CENTER (0x11)"
    ; "    const/16 v1, 0x11"
    ; "    invoke-virtual {v0, v1}, Landroid/widget/TextView;->setGravity(I)V"
    ; ""
    ; "    # Set text color to BLACK (0xff000000)"
    ; "    const v1, -0x1000000"
    ; "    invoke-virtual {v0, v1}, Landroid/widget/TextView;->setTextColor(I)V"
    ; ""
    ; "    # Set background color to WHITE (0xffffffff)"
    ; "    const/4 v1, -0x1"
    ; "    invoke-virtual {v0, v1}, Landroid/widget/TextView;->setBackgroundColor(I)V"
    ; ""
    ; "    # Set padding (50 pixels on all sides)"
    ; "    const/16 v1, 0x32"
    ; "    invoke-virtual {v0, v1, v1, v1, v1}, Landroid/widget/TextView;->setPadding(IIII)V"
    ; ""
    ; "    # Set the TextView as the content view"
    ; "    invoke-virtual {p0, v0}, L" +:+ package_path +:+ "/MainActivity;->setContentView(Landroid/view/View;)V"
    ; ""
    ; "    return-void"
    ; ".end method"
    ; "" ].

(** The assembly source written by [_create_prebuilt_dex]. *)
Definition prebuilt_smali_code (self : APKGenerator) (package_path : string)
  : string :=
  unlines
    [ ".class public L" +:+ package_path +:+ "/MainActivity;"
    ; ".super Landroid/app/Activity;"
    ; ""
    ; ".method public constructor <init>()V"
    ; "    .registers 1"
    ; "    invoke-direct {p0}, Landroid/app/Activity;-><init>()V"
    ; "    return-void"
    ; ".end method"
    ; ""
    ; ".method protected onCreate(Landroid/os/Bundle;)V"
    ; "    .registers 4"
    ; ""
    ; "    invoke-super {p0, p1}, Landroid/app/Activity;->onCreate(Landroid/os/Bundle;)V"
    ; ""
    ; "    new-instance v0, Landroid/widget/TextView;"
    ; "    invoke-direct {v0, p0}, Landroid/widget/TextView;-><init>(Landroid/content/Context;)V"
    ; ""
    ; "    const-string v1, " +:+ q +:+ app_name self +:+ "\n\nWelcome to Evil-Droid Framework\n\nThis is a demonstration APK\ngenerated for educational purposes." +:+ q
    ; "    invoke-virtual {v0, v1}, Landroid/widget/TextView;->setText(Ljava/lang/CharSequence;)V"
    ; ""
    ; "    const/high16 v1, 0x41a00000"
    ; "    invoke-virtual {v0, v1}, Landroid/widget/TextView;->setTextSize(F)V"
    ; ""
    ; "    const/16 v1, 0x11"
    ; "    invoke-virtual {v0, v1}, Landroid/widget/TextView;->setGravity(I)V"
    ; ""
    ; "    invoke-virtual {p0, v0}, L" +:+ package_path +:+ "/MainActivity;->setContentView(Landroid/view/View;)V"
    ; ""
    ; "    return-void"
    ; ".end method"
    ; "" ].

Definition apktool_yml : string :=
  unlines
    [ "version: 2.2.4"
    ; "apkFileName: temp.apk"
    ; "isFrameworkApk: false"
    ; "usesFramework:"
    ; "  ids:"
    ; "  - 1"
    ; "sdkInfo:"
    ; "  minSdkVersion: '16'"
    ; "  targetSdkVersion: '28'"
    ; "packageInfo:"
    ; "  renameManifestPackage: null"
    ; "  forcedPackageId: '127'"
    ; "versionInfo:"
    ; "  versionCode: '1'"
    ; "  versionName: '1.0'"
    ; "compressionType: false"
    ; "sharedLibrary: false"
    ; "sparseResources: false"
    ; "" ].

(** [APKGenerator._write_minimal_dex_placeholder] *)
Definition _write_minimal_dex_placeholder (dex_file : path) : M unit :=
  write dex_file (Binary minimal_dex_placeholder).

(** [APKGenerator._compile_java_to_dex] *)
Definition _compile_java_to_dex (self : APKGenerator) (work_dir java_file : path)
  : M (option path) :=
  f ← get_fs;
  match _find_android_jar env f with
  | None => ret None
  | Some android_jar =>
      let classes_dir := work_dir // "classes" in
      let class_file :=
        classes_dir // replace (package_name self) "." "/" // "MainActivity.class" in
      compiled ← try_except_only
          (fun e => match e with
                    | TimeoutExpired | FileNotFoundError => true
                    | _ => false
                    end)
          (returncode ← subprocess_run env javac class_file;
           ret (returncode =? 0))
          (ret false);
      if negb compiled then ret None
      else
        let dex_file := work_dir // "classes.dex" in
        d8_path ← shutil_which env "d8";
        by_d8 ← (if truthy d8_path then
                   try_except
                     (subprocess_run env d8 dex_file;;
                      e ← path_exists dex_file;
                      ret (if e then Some dex_file else None))
                     (ret None)
                 else ret None);
        match by_d8 with
        | Some dex => ret (Some dex)
        | None =>
            dx_path ← shutil_which env "dx";
            if truthy dx_path then
              try_except
                (subprocess_run env dx dex_file;;
                 e ← path_exists dex_file;
                 ret (if e then Some dex_file else None))
                (ret None)
            else ret None
        end
  end.

(** [APKGenerator._create_prebuilt_dex] *)
Definition _create_prebuilt_dex (self : APKGenerator) (work_dir : path) : M path :=
  let dex_file := work_dir // "classes.dex" in
  let package_path := replace (package_name self) "." "/" in
  let possible_apktool_paths :=
    [ Disk (script_dir env) // "tools" // "apktool.jar"
    ; Disk (cwd env) // "tools" // "apktool.jar" ] in
  f ← get_fs;
  let apktool_jar := find (is_file f) possible_apktool_paths in
  extracted ←
    match apktool_jar with
    | Some jar =>
        if is_file f jar then
          let temp_apk_dir := work_dir // "temp_apk" in
          let smali_out :=
            temp_apk_dir // "smali" // replace (package_name self) "." "/" in
          write (smali_out // "MainActivity.smali")
                (Text (prebuilt_smali_code self package_path));;
          write (temp_apk_dir // "apktool.yml") (Text apktool_yml);;
          let manifest := _create_android_manifest self in
          write (temp_apk_dir // "AndroidManifest.xml") (Text manifest);;
          let res_values := temp_apk_dir // "res" // "values" in
          write (res_values // "strings.xml") (Text (_create_strings_xml self));;
          try_except
            (let built_apk := work_dir // "built.apk" in
             subprocess_run env apktool_b built_apk;;
             e ← path_exists built_apk;
             if e then
               zf ← zip_open built_apk;
               if name_in "classes.dex" (namelist zf) then
                 match zip_read zf "classes.dex" with
                 | Some c => write dex_file c;; ret (Some dex_file)
                 | None => raise OSError
                 end
               else ret None
             else ret None)
            (ret None)
        else ret None
    | None => ret None
    end;
  match extracted with
  | Some dex => ret dex
  | None =>
      (* Ultimate fallback: create a minimal valid DEX header *)
      _write_minimal_dex_placeholder dex_file;;
      ret dex_file
  end.

(** [APKGenerator._create_minimal_dex] *)
Definition _create_minimal_dex (self : APKGenerator) (work_dir : path) : M path :=
  let smali_dir := work_dir // "smali" in
  let package_path := replace (package_name self) "." "/" in
  let main_activity_dir := smali_dir // package_path in
  let smali_file := main_activity_dir // "MainActivity.smali" in
  write smali_file (Text (smali_code self package_path));;
  let dex_file := work_dir // "classes.dex" in
  smali_path ← shutil_which env "smali";
  assembled ←
    (if truthy smali_path then
       try_except
         (subprocess_run env smali_assemble dex_file;;
          e ← path_exists dex_file;
          if e then ret (Some dex_file)
          else
            (* Try alternative smali syntax *)
            subprocess_run env smali_a dex_file;;
            e' ← path_exists dex_file;
            ret (if e' then Some dex_file else None))
         (ret None)
     else ret None);
  match assembled with
  | Some dex => ret dex
  | None => _create_prebuilt_dex self work_dir
  end.

(** [APKGenerator._create_resources] *)
Definition _create_resources (self : APKGenerator) (work_dir : path)
  : M (option path) :=
  let res_dir := work_dir // "res" in
  let values_dir := res_dir // "values" in
  write (values_dir // "strings.xml") (Text (_create_strings_xml self));;
  let manifest_file := work_dir // "AndroidManifest.xml" in
  write manifest_file (Text (_create_android_manifest self));;
  f ← get_fs;
  match _find_android_jar env f with
  | None => ret None
  | Some android_jar =>
      let resources_apk := work_dir // "resources.apk" in
      try_except
        (subprocess_run env aapt_package resources_apk;;
         e ← path_exists resources_apk;
         ret (if e then Some resources_apk else None))
        (ret None)
  end.

(** The key store of [_sign_apk], at a fixed place below the home directory. *)
Definition debug_keystore : path :=
  Disk (home env) // ".android" // "debug.keystore".

(** [APKGenerator._sign_apk] *)
Definition _sign_apk (self : APKGenerator) (apk_path : path) : M bool :=
  let keystore := debug_keystore in
  e ← path_exists keystore;
  (if e then unlink keystore else ret tt);;
  created ← try_except
      (subprocess_run_check env keytool_genkey keystore;; ret true)
      (ret false);
  if negb created then ret false
  else
    try_except
      (subprocess_run env jarsigner apk_path;;
       (* a non-zero return code only prints a warning *)
       ret true)
      (ret false).

(** [APKGenerator._align_apk] *)
Definition _align_apk (self : APKGenerator) (input_apk output_apk : path) : M bool :=
  try_except
    (subprocess_run env zipalign output_apk;;
     path_exists output_apk)
    (ret false).

(** The body of the loop of step 3 of [generate]:
    [if name not in zf.namelist(): zf.writestr(name, res_zf.read(name))]. *)
Definition add_member (res_zf zf : list member) (name : string) : list member :=
  if negb (name_in name (namelist zf)) then
    match zip_read res_zf name with
    | Some data => zf ++ [(name, data)]
    | None => zf
    end
  else zf.

(** The loop itself, [for name in res_zf.namelist()]. *)
Definition add_resources (zf res_zf : list member) : list member :=
  fold_left (add_member res_zf) (namelist res_zf) zf.

(** Step 3 of [generate]: the archive written to [unsigned_apk]. *)
Definition build_apk_structure (self : APKGenerator)
    (dex_file : path) (resources_apk : option path) (unsigned_apk : path)
  : M unit :=
  dex ← read dex_file;
  let zf := [("classes.dex", dex)] in
  (* the archive as it is closed if the next step raises *)
  write unsigned_apk (Archive zf);;
  let with_manifest :=
    zf ++ [("AndroidManifest.xml", Text (_create_android_manifest self))] in
  zf' ← match resources_apk with
        | Some resources =>
            e ← path_exists resources;
            if e then
              res_zf ← zip_open resources;
              ret (add_resources zf res_zf)
            else ret with_manifest
        | None => ret with_manifest
        end;
  write unsigned_apk (Archive zf').

(** The paths that [generate] names. *)
Definition unsigned_apk : path := work_dir // "unsigned.apk".
Definition final_apk (self : APKGenerator) : path :=
  Disk (output_dir self) // (app_name self +:+ ".apk").

(** Steps 1 to 3 of [generate]: the value is the unsigned archive, or
    [None] where the source returns [None]. *)
Definition assemble (self : APKGenerator) : M (option path) :=
  (* Step 1: Create DEX file *)
  dex_file ← _create_minimal_dex self work_dir;
  e ← path_exists dex_file;
  if negb e then ret None
  else
    (* Step 2: Create and compile resources *)
    resources_apk ← _create_resources self work_dir;
    (* Step 3: Create the APK structure *)
    build_apk_structure self dex_file resources_apk unsigned_apk;;
    ret (Some unsigned_apk).

(** Step 5 of [generate]. *)
Definition align_or_copy (self : APKGenerator) (unsigned_apk final_apk : path)
  : M unit :=
  aligned ← _align_apk self unsigned_apk final_apk;
  if negb aligned then
    (* If alignment fails, just copy the signed APK *)
    shutil_copy unsigned_apk final_apk
  else ret tt.

(** Steps 4 and 5 of [generate] and its last test. *)
Definition sign_and_align (self : APKGenerator) (unsigned_apk : path)
  : M (option path) :=
  (* Step 4: Sign the APK; a failure only prints a warning *)
  _sign_apk self unsigned_apk;;
  (* Step 5: Align the APK *)
  align_or_copy self unsigned_apk (final_apk self);;
  e ← path_exists (final_apk self);
  ret (if e then Some (final_apk self) else None).

(** [APKGenerator.generate] *)
Definition generate (self : APKGenerator) : M (option path) :=
  TemporaryDirectory
    (assembled ← assemble self;
     match assembled with
     | None => ret None
     | Some unsigned_apk => sign_and_align self unsigned_apk
     end).

End Methods.

(** ** The command line *)

Record Args := {
  name : string;       (* [--name], default [EvilDroidApp] *)
  package : string;    (* [--package], default [com.evildroid.app] *)
  output : string      (* [--output], default [./evilapk/] *)
}.

(** The two checks of [main] under [# Validate package name]. *)
Definition only_alnum_and_dots (package : string) : bool :=
  forallb (fun c => Str.isalnum c || Str.eqc c ".") (Str.chars package).

Definition dot_at_either_end (package : string) : bool :=
  Str.startswith package "." || Str.endswith package ".".

(** The object that [APKGenerator(args.name, args.package, args.output)]
    builds. *)
Definition generator_of (env : Env) (args : Args) : APKGenerator :=
  {| app_name := name args;
     package_name := package args;
     output_dir := resolve (cwd env) (output args) |}.

(** The part of [main] under [# Generate APK]. *)
Definition generate_and_exit (env : Env) (args : Args) : M Z :=
  generator ← __init__ env (name args) (package args) (output args);
  result ← generate env generator;
  match result with
  | Some _ => ret 0
  | None => ret 1
  end.

(** [main] after [parser.parse_args()]; the value is the argument of
    [sys.exit]. *)
Definition main (env : Env) (args : Args) : M Z :=
  if negb (only_alnum_and_dots (package args)) then ret 1
  else if dot_at_either_end (package args) then ret 1
  else generate_and_exit env args.


(** ** Statements about runs *)






(** The files of the work directory that the steps hand to one another. *)
Definition dex_file : path := work_dir // "classes.dex".
Definition resources_apk : path := work_dir // "resources.apk".


(** The state in which the body of [with TemporaryDirectory()] starts. *)
Definition enter (s : state) : state :=
  {| fs := rmtree_work (fs s); trace := trace s |}.


(** ** The bytecode cascade as the design describes it *)

(** Every strategy returns a file or nothing; the driver tries the
    strategies in order and stops at the first file; the last strategy
    always returns one. *)
Fixpoint cascade (strategies : list (M (option path))) (last : M path) : M path :=
  match strategies with
  | [] => last
  | strategy :: rest =>
      found ← strategy;
      match found with
      | Some file => ret file
      | None => cascade rest last
      end
  end.

Section Strategies.
Context (env : Env) (self : APKGenerator).

(** Compile: locate the platform archive, compile a generated source file,
    convert the class files. *)
Definition compile_strategy : M (option path) :=
  let java_file := work_dir // "MainActivity.java" in
  write java_file (Text (_create_main_activity_java self));;
  _compile_java_to_dex env self work_dir java_file.

(** Assemble: render the assembly source and call the assembler on it, in
    one invocation syntax and, if that leaves no file, in the other. *)
Definition assemble_strategy : M (option path) :=
  let package_path := Str.replace (package_name self) "." "/" in
  write (work_dir // "smali" // package_path // "MainActivity.smali")
        (Text (smali_code self package_path));;
  assembler ← shutil_which env "smali";
  if Str.truthy assembler then
    try_except
      (subprocess_run env smali_assemble dex_file;;
       first_try ← path_exists dex_file;
       if first_try then ret (Some dex_file)
       else
         subprocess_run env smali_a dex_file;;
         second_try ← path_exists dex_file;
         ret (if second_try then Some dex_file else None))
      (ret None)
  else ret None.

(** Externally built: find the repackaging tool, lay out a small project,
    let the tool build an archive, take the bytecode member out of it. *)
Definition externally_built_strategy : M (option path) :=
  let package_path := Str.replace (package_name self) "." "/" in
  f ← get_fs;
  match find (is_file f) [ Disk (script_dir env) // "tools" // "apktool.jar"
                         ; Disk (cwd env) // "tools" // "apktool.jar" ] with
  | None => ret None
  | Some jar =>
      if is_file f jar then
        let project := work_dir // "temp_apk" in
        write (project // "smali" // package_path // "MainActivity.smali")
              (Text (prebuilt_smali_code self package_path));;
        write (project // "apktool.yml") (Text apktool_yml);;
        write (project // "AndroidManifest.xml")
              (Text (_create_android_manifest self));;
        write (project // "res" // "values" // "strings.xml")
              (Text (_create_strings_xml self));;
        try_except
          (subprocess_run env apktool_b (work_dir // "built.apk");;
           built ← path_exists (work_dir // "built.apk");
           if built then
             archive ← zip_open (work_dir // "built.apk");
             if name_in "classes.dex" (namelist archive) then
               match zip_read archive "classes.dex" with
               | Some bytecode => write dex_file bytecode;; ret (Some dex_file)
               | None => raise OSError
               end
             else ret None
           else ret None)
          (ret None)
      else ret None
  end.

(** Placeholder: the Binary Container Builder, which cannot fail. *)
Definition placeholder_strategy : M path :=
  _write_minimal_dex_placeholder dex_file;; ret dex_file.

(** The cascade as claimed, with the compiler first, and the cascade that
    starts at the assembler. *)
Definition cascade_from_compiler : M path :=
  cascade [compile_strategy; assemble_strategy; externally_built_strategy]
          placeholder_strategy.

Definition cascade_from_assembler : M path :=
  cascade [assemble_strategy; externally_built_strategy] placeholder_strategy.

End Strategies.

(** The interactions of a run that do not belong to the Compile strategy. *)
Definition not_compiling (ev : event) : bool :=
  match ev with
  | Run javac | Run d8 | Run dx | Which "d8" | Which "dx" => false
  | _ => true
  end.

(** The second state continues the trace of the first by events that all
    satisfy [ok]. *)
Definition extends_by (ok : event -> bool) (s s' : state) : Prop :=
  exists t, trace s' = trace s ++ t /\ forallb ok t = true.

(** Every run of [m] continues the trace by events that satisfy [ok]. *)
Definition traces (ok : event -> bool) {A} (m : M A) : Prop :=
  forall s, extends_by ok s (snd (m s)).

(** ** Example environments *)

(** A machine with none of the external programs installed. *)
Definition offline : Env :=
  {| which := fun _ => None;
     environ := fun _ => None;
     home := ["home"; "user"];
     cwd := ["home"; "user"; "work"];
     script_dir := ["opt"; "evil-droid"];
     tool := fun _ _ => Raises FileNotFoundError Keep |}.

Definition empty_state : state := {| fs := ∅; trace := [] |}.

Definition test_args (package : string) : Args :=
  {| name := "TestApp"; package := package; output := "./evilapk/" |}.


Definition test_generator : APKGenerator :=
  generator_of offline (test_args "com.test.app").




(** A machine with the platform archive, a compiler and a bytecode
    converter, and nothing else: the Compile strategy would go through. *)
Definition with_compiler : Env :=
  {| which := fun n => if String.eqb n "d8" then Some "/usr/bin/d8" else None;
     environ := environ offline;
     home := home offline;
     cwd := cwd offline;
     script_dir := script_dir offline;
     tool := fun t f =>
               match t with
               | javac => Returns 0 (Put (Binary [0xca; 0xfe; 0xba; 0xbe]))
               | d8 => Returns 0 (Put (Binary (MINIMAL_DEX_HEADER ++ [1; 2; 3])))
               | _ => Raises FileNotFoundError Keep
               end |}.

Definition sdk_state : state :=
  {| fs := {[ Disk ["usr"; "lib"; "android-sdk"; "platforms"; "android-23";
                    "android.jar"] := Binary [0x50; 0x4b] ]};
     trace := [] |}.


(** A work directory after step 2 in which the resource compiler has left
    an archive that repeats a name and has a member called like the
    bytecode member. *)
Definition resources_state : state :=
  {| fs := {[ dex_file := Binary minimal_dex_placeholder;
              resources_apk :=
                Archive [("AndroidManifest.xml", Binary [3; 0; 8; 0]);
                         ("classes.dex", Binary [0xba; 0xad]);
                         ("resources.arsc", Binary [2; 0; 12; 0]);
                         ("AndroidManifest.xml", Binary [3; 0; 8; 1])] ]};
     trace := [] |}.

(** ** Predicates on runs *)

(** [wp m s Q]: running [m] from [s] ends in a result and state that satisfy
    [Q]. Every computation of [M] is a total function, so this is also a
    statement of termination. *)
Definition wp {A} (m : M A) (s : state) (Q : result A -> state -> Prop) : Prop :=
  Q (fst (m s)) (snd (m s)).

(** Continuation of a postcondition through a result. *)
Definition after {A B} (k : A -> M B) (Q : result B -> state -> Prop)
  : result A -> state -> Prop :=
  fun r s' => match r with
              | Ok a => wp (k a) s' Q
              | Exn e => Q (Exn e) s'
              end.


(** What step 3 leaves behind when it ends without an exception. *)
Definition archive_built (dex : content) (unsigned : path) (s' : state) : Prop :=
  exists ms,
    fs s' !! unsigned = Some (Archive ms)
    /\ head ms = Some ("classes.dex", dex)
    /\ NoDup (namelist ms)
    /\ zip_read ms "classes.dex" = Some dex.

(** ** Further example environments *)


(** The file system after [_create_minimal_dex] has written the assembly
    source. *)
Definition with_smali_source (self : APKGenerator) (f : filesystem) : filesystem :=
  let package_path := Str.replace (package_name self) "." "/" in
  <[work_dir // "smali" // package_path // "MainActivity.smali"
    := Text (smali_code self package_path)]> f.

(** The interactions other than the second invocation syntax of the
    assembler. *)
Definition not_second_syntax (ev : event) : bool :=
  match ev with Run smali_a => false | _ => true end.

(** A machine with an assembler; the table says what its two invocation
    syntaxes do. *)
Definition with_assembler (first second : outcome) : Env :=
  {| which := fun n => if String.eqb n "smali" then Some "/usr/bin/smali" else None;
     environ := environ offline;
     home := home offline;
     cwd := cwd offline;
     script_dir := script_dir offline;
     tool := fun t f =>
               match t with
               | smali_assemble => first
               | smali_a => second
               | _ => Raises FileNotFoundError Keep
               end |}.

Definition assembled_bytes : content := Binary (MINIMAL_DEX_HEADER ++ [7; 7; 7]).

(** A machine with the repackaging tool, which leaves [built] behind. *)
Definition with_apktool (built : outcome) : Env :=
  {| which := which offline;
     environ := environ offline;
     home := home offline;
     cwd := cwd offline;
     script_dir := script_dir offline;
     tool := fun t f =>
               match t with
               | apktool_b => built
               | _ => Raises FileNotFoundError Keep
               end |}.

Definition apktool_state : state :=
  {| fs := {[ Disk ["opt"; "evil-droid"; "tools"; "apktool.jar"] := Binary [0x50; 0x4b] ]};
     trace := [] |}.

(** The bytecode that the Externally-built strategy takes from what the
    repackaging tool left: the member [classes.dex] of an archive, and
    otherwise nothing. *)
Definition bytecode_of_built (built : content) : option content :=
  match built with
  | Archive ms => zip_read ms "classes.dex"
  | _ => None
  end.


(** The inputs of the resource compiler in the work directory. *)
Definition manifest_file : path := work_dir // "AndroidManifest.xml".
Definition strings_file : path := work_dir // "res" // "values" // "strings.xml".

(** The file system after [_create_resources] has written its two inputs. *)
Definition with_resource_sources (self : APKGenerator) (f : filesystem) : filesystem :=
  <[manifest_file := Text (_create_android_manifest self)]>
    (<[strings_file := Text (_create_strings_xml self)]> f).


(** The exceptions that [_compile_java_to_dex] catches around the compiler. *)
Definition caught_around_javac (e : exn) : bool :=
  match e with
  | TimeoutExpired | FileNotFoundError => true
  | _ => false
  end.

(** A compiler call that [_compile_java_to_dex] takes as "no class files":
    a non-zero exit status, or one of the two exceptions it catches. *)
Definition javac_gave_up (o : outcome) : bool :=
  match o with
  | Returns rc _ => negb (rc =? 0)
  | Raises e _ => caught_around_javac e
  end.

(** The machine with the platform archive and a compiler, where the table
    says how the compiler ends. *)
Definition with_javac (compiler : outcome) : Env :=
  {| which := which with_compiler;
     environ := environ offline;
     home := home offline;
     cwd := cwd offline;
     script_dir := script_dir offline;
     tool := fun t f =>
               match t with
               | javac => compiler
               | _ => tool with_compiler t f
               end |}.

Definition java_file : path := work_dir // "MainActivity.java".

(** The API level that the scan reads off the name of a platform directory
    ([None] where [int] raises [ValueError]). *)
Definition api_level_of (name : string) : option Z :=
  Str.int (hd "" (Str.split (Str.replace name "android-" "") ".")).


(** An entry of the platforms directory that the scan keeps: it holds an
    [android.jar] and its name gives an API level. *)
Definition candidate (f : filesystem) (platforms_dir : list string)
    (name : string) (api : Z) : Prop :=
  name ∈ iterdir f platforms_dir
  /\ is_file f (Disk (platforms_dir ++ [name; "android.jar"])) = true
  /\ api_level_of name = Some api.


(** A system SDK directory with three platforms and one entry whose name
    gives no API level. *)
Definition platforms_state : state :=
  {| fs := {[ Disk ["usr"; "lib"; "android-sdk"; "platforms"; "android-33";
                    "android.jar"] := Binary [0x50; 0x4b] ]}
           ∪ {[ Disk ["usr"; "lib"; "android-sdk"; "platforms"; "android-26";
                      "android.jar"] := Binary [0x50; 0x4b] ]}
           ∪ {[ Disk ["usr"; "lib"; "android-sdk"; "platforms"; "android-19";
                      "android.jar"] := Binary [0x50; 0x4b] ]}
           ∪ {[ Disk ["usr"; "lib"; "android-sdk"; "platforms"; "android-S";
                      "android.jar"] := Binary [0x50; 0x4b] ]};
     trace := [] |}.

(** The machine with another answer table for [shutil.which]. *)
Definition with_which (env : Env) (reported : string -> option string) : Env :=
  {| which := reported;
     environ := environ env;
     home := home env;
     cwd := cwd env;
     script_dir := script_dir env;
     tool := tool env |}.

(** An answer table that knows the four tools of the dependency check. *)
Definition all_found (n : string) : option string :=
  if name_in n ["aapt"; "zipalign"; "keytool"; "jarsigner"]
  then Some ("/usr/bin/" +:+ n) else None.

(** * Properties *)

(** ** The placeholder container *)

Lemma length_to_bytes_little n x : length (to_bytes_little n x) = n.
Proof. revert x. induction n as [|n IH]; intros x; simpl; [|rewrite IH]; reflexivity. Qed.

Lemma from_to_bytes_little n x :
  from_bytes_little (to_bytes_little n x) = Z.land x (Z.ones (8 * Z.of_nat n)).
Proof.
  revert x. induction n as [|n IH]; intros x.
  - simpl. rewrite Z.land_0_r. reflexivity.
  - cbn [to_bytes_little from_bytes_little]. rewrite IH.
    apply Z.bits_inj'. intros i Hi.
    rewrite Z.lor_spec, !Z.land_spec.
    change 0xff with (Z.ones 8).
    destruct (Z.ltb_spec i 8) as [H8|H8].
    + rewrite Z.shiftl_spec_low by lia.
      rewrite !Z.ones_spec_low by lia. rewrite orb_false_r. reflexivity.
    + rewrite Z.shiftl_spec_high by lia.
      rewrite Z.land_spec, Z.shiftr_spec by lia.
      rewrite (Z.ones_spec_high 8) by lia. rewrite andb_false_r. simpl.
      replace (i - 8 + 8) with i by lia. f_equal.
      destruct (Z.ltb_spec i (8 * Z.of_nat (S n))) as [Hn|Hn].
      * rewrite !Z.ones_spec_low by lia. reflexivity.
      * rewrite !Z.ones_spec_high by lia. reflexivity.
Qed.

(** Whatever the header, the field written at offsets 8 to 11 is the
    checksum that a reader recomputes from offset 12 on. *)
Lemma fill_checksum_self_consistent (dex_data : bytes) :
  (12 <= length dex_data)%nat ->
  length (fill_checksum dex_data) = length dex_data
  /\ recomputed_checksum (fill_checksum dex_data)
     = stored_checksum (fill_checksum dex_data).
Proof.
  intros Hlen. unfold fill_checksum, set_slice, recomputed_checksum,
    stored_checksum, slice.
  set (c := Z.land _ 0xffffffff).
  assert (H8 : length (firstn 8 dex_data) = 8%nat)
    by (rewrite length_firstn; lia).
  assert (H4 : length (to_bytes_little 4 c) = 4%nat)
    by apply length_to_bytes_little.
  split.
  - rewrite !length_app, H8, H4, length_skipn. lia.
  - rewrite (drop_app_length' (firstn 8 dex_data) _ 8) by (symmetry; exact H8).
    change (12 - 8)%nat with 4%nat.
    change (take 4 (to_bytes_little 4 c ++ drop 12 dex_data))
      with (to_bytes_little 4 c).
    rewrite app_assoc.
    rewrite (drop_app_length' _ _ 12) by (rewrite length_app, H8, H4; reflexivity).
    rewrite from_to_bytes_little. subst c.
    change (Z.ones (8 * Z.of_nat 4)) with 0xffffffff.
    rewrite <- Z.land_assoc, Z.land_diag. reflexivity.
Qed.

Lemma minimal_dex_placeholder_filled :
  minimal_dex_placeholder = fill_checksum dex_data0.
Proof. reflexivity. Qed.

(** C2: the placeholder written by [_write_minimal_dex_placeholder] is 112
    bytes long, starts with the magic and version preamble, consists of
    bytes, and the Adler-32 checksum of everything after offset 12 equals the
    little-endian value stored at offsets 8 to 11. *)
Theorem placeholder_checksum_self_consistent :
  (forall dex_file s,
      fs (snd (_write_minimal_dex_placeholder dex_file s)) !! dex_file
      = Some (Binary minimal_dex_placeholder))
  /\ length minimal_dex_placeholder = 112%nat
  /\ Bytes.wf minimal_dex_placeholder = true
  /\ firstn 8 minimal_dex_placeholder = MINIMAL_DEX_HEADER
  /\ recomputed_checksum minimal_dex_placeholder
     = stored_checksum minimal_dex_placeholder.
Proof.
  split.
  - intros dex_file s. cbn. apply lookup_insert_eq.
  - vm_compute. repeat split.
Qed.

(** ** Validation of the package identifier *)










(** ** Reasoning about runs: weakest preconditions *)

Lemma wp_run {A} (m : M A) s Q :
  wp m s Q -> exists r s', m s = (r, s') /\ Q r s'.
Proof. unfold wp. destruct (m s) as [r s']. eauto. Qed.


Lemma wp_ret {A} (a : A) s Q : Q (Ok a) s -> wp (ret a) s Q.
Proof. exact id. Qed.

Lemma wp_raise {A} e s (Q : result A -> state -> Prop) :
  Q (Exn e) s -> wp (raise e) s Q.
Proof. exact id. Qed.

Lemma wp_bind {A B} (m : M A) (k : A -> M B) s Q :
  wp m s (after k Q) -> wp (bind m k) s Q.
Proof. unfold wp, after, bind. destruct (m s) as [[a|e] s']; exact id. Qed.

Lemma wp_try_except {A} (body handler : M A) s Q :
  wp body s (fun (r : result A) s' => match r with
                         | Ok a => Q (Ok a) s'
                         | Exn _ => wp handler s' Q
                         end) ->
  wp (try_except body handler) s Q.
Proof. unfold wp, try_except. destruct (body s) as [[a|e] s']; exact id. Qed.

Lemma wp_try_except_only {A} (catch : exn -> bool) (body handler : M A) s Q :
  wp body s (fun (r : result A) s' => match r with
                         | Ok a => Q (Ok a) s'
                         | Exn e => if catch e then wp handler s' Q
                                    else Q (Exn e) s'
                         end) ->
  wp (try_except_only catch body handler) s Q.
Proof.
  unfold wp, try_except_only. destruct (body s) as [[a|e] s']; [exact id|].
  simpl. destruct (catch e); exact id.
Qed.

Lemma wp_get_fs s Q : Q (Ok (fs s)) s -> wp get_fs s Q.
Proof. exact id. Qed.

Lemma wp_set_fs f s Q :
  Q (Ok tt) {| fs := f (fs s); trace := trace s |} -> wp (set_fs f) s Q.
Proof. exact id. Qed.

Lemma wp_log ev s Q :
  Q (Ok tt) {| fs := fs s; trace := trace s ++ [ev] |} -> wp (log ev) s Q.
Proof. exact id. Qed.

Lemma wp_path_exists p s Q :
  Q (Ok (is_file (fs s) p)) s -> wp (path_exists p) s Q.
Proof. exact id. Qed.

Lemma wp_write p c s Q :
  Q (Ok tt) {| fs := <[p := c]> (fs s); trace := trace s |} ->
  wp (write p c) s Q.
Proof. exact id. Qed.

Lemma wp_read p s Q :
  match fs s !! p with
  | Some c => Q (Ok c) s
  | None => Q (Exn FileNotFoundError) s
  end ->
  wp (read p) s Q.
Proof. unfold wp, read, bind, get_fs. simpl. destruct (fs s !! p); exact id. Qed.

Lemma wp_zip_open p s Q :
  match fs s !! p with
  | Some (Archive ms) => Q (Ok ms) s
  | Some _ => Q (Exn BadZipFile) s
  | None => Q (Exn FileNotFoundError) s
  end ->
  wp (zip_open p) s Q.
Proof.
  unfold wp, zip_open, read, bind, get_fs. simpl.
  destruct (fs s !! p) as [[]|]; exact id.
Qed.

Lemma wp_shutil_copy src dst s Q :
  match fs s !! src with
  | Some c => Q (Ok tt) {| fs := <[dst := c]> (fs s); trace := trace s |}
  | None => Q (Exn FileNotFoundError) s
  end ->
  wp (shutil_copy src dst) s Q.
Proof.
  unfold wp, shutil_copy, read, write, bind, get_fs, set_fs. simpl.
  destruct (fs s !! src); exact id.
Qed.

Lemma wp_unlink p s Q :
  (if is_file (fs s) p
   then Q (Ok tt) {| fs := delete p (fs s); trace := trace s |}
   else Q (Exn FileNotFoundError) s) ->
  wp (unlink p) s Q.
Proof.
  unfold wp, unlink, bind, get_fs. simpl. destruct (is_file (fs s) p); exact id.
Qed.

Lemma wp_shutil_which env n s Q :
  Q (Ok (which env n)) {| fs := fs s; trace := trace s ++ [Which n] |} ->
  wp (shutil_which env n) s Q.
Proof. exact id. Qed.

Lemma wp_subprocess_run env t out s Q :
  match tool env t (fs s) with
  | Raises e w =>
      Q (Exn e) {| fs := apply_effect w out (fs s); trace := trace s ++ [Run t] |}
  | Returns rc w =>
      Q (Ok rc) {| fs := apply_effect w out (fs s); trace := trace s ++ [Run t] |}
  end ->
  wp (subprocess_run env t out) s Q.
Proof.
  unfold wp, subprocess_run, bind, log, get_fs, set_fs. simpl.
  destruct (tool env t (fs s)); exact id.
Qed.

Lemma wp_TemporaryDirectory {A} (body : M A) s Q :
  wp body (enter s)
     (fun r s' => Q r {| fs := rmtree_work (fs s'); trace := trace s' |}) ->
  wp (TemporaryDirectory body) s Q.
Proof.
  unfold wp, TemporaryDirectory, enter. destruct (body _) as [r s']. exact id.
Qed.

(** Case analysis on a scrutinee, reusing what is already known about it. *)
Ltac case_on x :=
  first
    [ match goal with H : x = _ |- _ => rewrite H end
    | destruct x eqn:? ].

(** One step of symbolic execution. *)
Ltac wp_step :=
  lazymatch goal with
  | |- wp (bind _ _) _ _ => apply wp_bind
  | |- wp (ret _) _ _ => apply wp_ret
  | |- wp (raise _) _ _ => apply wp_raise
  | |- wp (try_except _ _) _ _ => apply wp_try_except
  | |- wp (try_except_only _ _ _) _ _ => apply wp_try_except_only
  | |- wp get_fs _ _ => apply wp_get_fs
  | |- wp (set_fs _) _ _ => apply wp_set_fs
  | |- wp (log _) _ _ => apply wp_log
  | |- wp (path_exists _) _ _ => apply wp_path_exists
  | |- wp (write _ _) _ _ => apply wp_write
  | |- wp (read _) _ _ => apply wp_read
  | |- wp (unlink _) _ _ => apply wp_unlink
  | |- wp (zip_open _) _ _ => apply wp_zip_open
  | |- wp (shutil_copy _ _) _ _ => apply wp_shutil_copy
  | |- wp (shutil_which _ _) _ _ => apply wp_shutil_which
  | |- wp (subprocess_run _ _ _) _ _ => apply wp_subprocess_run
  | |- wp (TemporaryDirectory _) _ _ => apply wp_TemporaryDirectory
  | |- wp (if ?b then _ else _) _ _ => case_on b
  | |- wp (match (if ?b then _ else _) with _ => _ end) _ _ => case_on b
  | |- wp (match ?x with _ => _ end) _ _ => case_on x
  | |- after _ _ _ _ => unfold after at 1
  | |- match ?x with _ => _ end => case_on x
  | |- if ?b then _ else _ => case_on b
  end; cbn beta iota; cbn [fs trace negb].

Ltac wp_steps := repeat wp_step.

(** ** Lookups that survive file-system changes *)













(** ** Step 1: the bytecode cascade *)




(** ** Step 2: resources *)


(** ** Step 3: the archive *)

Lemma name_in_elem (n : string) (names : list string) :
  name_in n names = true <-> n ∈ names.
Proof.
  unfold name_in. rewrite existsb_exists, list_elem_of_In. split.
  - intros (x & Hx & E). apply String.eqb_eq in E. by subst.
  - intros H. exists n. split; [exact H | apply String.eqb_refl].
Qed.

Lemma namelist_app (a b : list member) : namelist (a ++ b) = namelist a ++ namelist b.
Proof. apply map_app. Qed.

Lemma add_member_extends res_zf zf n :
  exists extra, add_member res_zf zf n = zf ++ extra.
Proof.
  unfold add_member. destruct (negb _); [destruct (zip_read _ _)|].
  - eexists; reflexivity.
  - exists []. by rewrite app_nil_r.
  - exists []. by rewrite app_nil_r.
Qed.

Lemma add_member_NoDup res_zf zf n :
  NoDup (namelist zf) -> NoDup (namelist (add_member res_zf zf n)).
Proof.
  intros H. unfold add_member.
  destruct (name_in n (namelist zf)) eqn:E; simpl; [exact H|].
  destruct (zip_read res_zf n); [|exact H].
  rewrite namelist_app. apply NoDup_app. split; [exact H|]. split.
  - intros x Hx Hx'. simpl in Hx'. apply list_elem_of_singleton in Hx' as ->.
    apply name_in_elem in Hx. congruence.
  - simpl. apply NoDup_singleton.
Qed.

Lemma fold_add_member_extends res_zf names zf :
  exists extra, fold_left (add_member res_zf) names zf = zf ++ extra.
Proof.
  revert zf. induction names as [|n names IH]; intros zf; simpl.
  - exists []. by rewrite app_nil_r.
  - destruct (add_member_extends res_zf zf n) as [e1 ->].
    destruct (IH (zf ++ e1)) as [e2 ->].
    exists (e1 ++ e2). by rewrite app_assoc.
Qed.

Lemma fold_add_member_NoDup res_zf names zf :
  NoDup (namelist zf) ->
  NoDup (namelist (fold_left (add_member res_zf) names zf)).
Proof.
  revert zf. induction names as [|n names IH]; intros zf H; simpl.
  - exact H.
  - apply IH, add_member_NoDup, H.
Qed.

(** In an archive without duplicate names, reading a name gives the member
    of that name. *)
Lemma zip_read_NoDup (ms : list member) n c :
  NoDup (namelist ms) -> (n, c) ∈ ms -> zip_read ms n = Some c.
Proof.
  intros Hnd Hin. unfold zip_read.
  destruct (find _ (rev ms)) as [[n' c']|] eqn:E; simpl.
  - apply find_some in E as [Hin' Heq]. simpl in Heq.
    apply String.eqb_eq in Heq. subst n'.
    apply in_rev, list_elem_of_In in Hin'. f_equal.
    clear -Hnd Hin Hin'.
    induction ms as [|[m d] ms IH]; [by apply elem_of_nil in Hin|].
    simpl in Hnd. apply NoDup_cons in Hnd as [Hm Hnd].
    apply elem_of_cons in Hin as [Hin|Hin], Hin' as [Hin'|Hin'].
    + congruence.
    + injection Hin as -> ->. exfalso. apply Hm.
      apply (list_elem_of_fmap_2 fst) in Hin'. exact Hin'.
    + injection Hin' as -> ->. exfalso. apply Hm.
      apply (list_elem_of_fmap_2 fst) in Hin. exact Hin.
    + by apply IH.
  - exfalso. apply list_elem_of_In, in_rev in Hin.
    apply (find_none _ _ E) in Hin. simpl in Hin.
    rewrite String.eqb_refl in Hin. discriminate.
Qed.

Lemma run_wp {A} (m : M A) s r s' (Q : result A -> state -> Prop) :
  m s = (r, s') -> wp m s Q -> Q r s'.
Proof. unfold wp. intros ->. exact id. Qed.

Lemma archive_built_intro dex unsigned s' ms extra :
  fs s' !! unsigned = Some (Archive ms) ->
  ms = [("classes.dex", dex)] ++ extra ->
  NoDup (namelist ms) ->
  archive_built dex unsigned s'.
Proof.
  intros Hf -> Hnd. exists ([("classes.dex", dex)] ++ extra).
  repeat split; try assumption.
  apply zip_read_NoDup; [exact Hnd|]. apply elem_of_cons. by left.
Qed.

Lemma build_apk_structure_spec self dexf res unsigned s :
  wp (build_apk_structure self dexf res unsigned) s
     (fun r s' =>
        (forall l, unsigned <> Disk l -> fs s' !! Disk l = fs s !! Disk l)
        /\ match r with
           | Ok _ => exists dex, fs s !! dexf = Some dex
                                 /\ archive_built dex unsigned s'
           | Exn e => e = BadZipFile \/ fs s !! dexf = None
           end
        /\ (res = None -> forall dex,
               fs s !! dexf = Some dex ->
               r = Ok tt
               /\ fs s' !! unsigned
                  = Some (Archive [("classes.dex", dex);
                                   ("AndroidManifest.xml",
                                    Text (_create_android_manifest self))]))).
Proof.
  unfold build_apk_structure. wp_steps.
  all: split;
    [ intros l Hl; rewrite ?lookup_insert_ne by congruence; reflexivity |].
  all: split; [| try discriminate].
  all: try (left; reflexivity).
  all: try (right; reflexivity).
  all: try match goal with
         | Hf : is_file ?f ?p = true, Hn : ?f !! ?p = None |- _ =>
             unfold is_file in Hf; rewrite Hn in Hf; discriminate Hf
         end.
  all: try (intros _ dex Hdex; simplify_eq; split;
            [reflexivity | apply lookup_insert_eq]).
  - eexists; split; [reflexivity|]. unfold add_resources.
    destruct (fold_add_member_extends members (namelist members)
                [("classes.dex", c)]) as [extra E].
    eapply archive_built_intro; [apply lookup_insert_eq | exact E |].
    apply fold_add_member_NoDup. simpl. apply NoDup_singleton.
  - eexists; split; [reflexivity|].
    eapply archive_built_intro; [apply lookup_insert_eq | reflexivity |].
    simpl. apply NoDup_cons. split; [|apply NoDup_singleton].
    intros H. apply list_elem_of_singleton in H. discriminate.
  - eexists; split; [reflexivity|].
    eapply archive_built_intro; [apply lookup_insert_eq | reflexivity |].
    simpl. apply NoDup_cons. split; [|apply NoDup_singleton].
    intros H. apply list_elem_of_singleton in H. discriminate.
Qed.

(** ** Steps 4 and 5: signing and alignment *)







(** ** The pipeline as a whole *)


Lemma final_apk_disk self :
  final_apk self = Disk (resolve (output_dir self) (app_name self +:+ ".apk")).
Proof. reflexivity. Qed.









(** ** The run on a machine without tools *)




(** ** Signing failures are not fatal *)



(** ** The archive has one member per name *)

(** C5: when step 3 ends without an exception, the archive it leaves has no
    two members of the same name, and reading [classes.dex] from it gives the
    bytes of the bytecode file, whatever the resource archive held under
    that name. *)
Theorem archive_members_have_distinct_names self dexf res unsigned s s' :
  build_apk_structure self dexf res unsigned s = (Ok tt, s') ->
  exists dex ms,
    fs s !! dexf = Some dex
    /\ fs s' !! unsigned = Some (Archive ms)
    /\ NoDup (namelist ms)
    /\ zip_read ms "classes.dex" = Some dex.
Proof.
  intros H.
  destruct (run_wp _ _ _ _ _ H (build_apk_structure_spec self dexf res unsigned s))
    as (_ & (dex & Hdex & ms & Hf & _ & Hnd & Hread) & _).
  exists dex, ms. repeat split; assumption.
Qed.

(** Step 3 on a resource archive that repeats a name and has its own
    [classes.dex]. *)
Lemma archive_members_witness :
  exists dex ms,
    fs resources_state !! dex_file = Some dex
    /\ fs (snd (build_apk_structure test_generator dex_file (Some resources_apk)
                  unsigned_apk resources_state)) !! unsigned_apk
       = Some (Archive ms)
    /\ NoDup (namelist ms)
    /\ zip_read ms "classes.dex" = Some dex.
Proof.
  apply (archive_members_have_distinct_names
           test_generator dex_file (Some resources_apk) unsigned_apk
           resources_state).
  vm_compute. reflexivity.
Defined.

(** ** Alignment and its fallback *)







(** ** The key store *)

Lemma wp_returns {A} (m : M A) s (r0 : result A) (P : state -> Prop) :
  wp m s (fun r s' => r = r0 /\ P s') -> exists s', m s = (r0, s') /\ P s'.
Proof.
  intros H. apply wp_run in H as (r & s' & Hrun & -> & HP). eauto.
Qed.



(** ** What a run may interact with *)

Section Traces.
Context (ok : event -> bool).

Lemma extends_by_refl s : extends_by ok s s.
Proof. exists []. split; [by rewrite app_nil_r | reflexivity]. Qed.

Lemma extends_by_trans s1 s2 s3 :
  extends_by ok s1 s2 -> extends_by ok s2 s3 -> extends_by ok s1 s3.
Proof.
  intros (t1 & E1 & H1) (t2 & E2 & H2). exists (t1 ++ t2). split.
  - rewrite E2, E1. by rewrite app_assoc.
  - rewrite forallb_app, H1, H2. reflexivity.
Qed.

Lemma extends_by_same_trace s s' :
  trace s' = trace s -> extends_by ok s s'.
Proof. intros E. exists []. split; [by rewrite app_nil_r | reflexivity]. Qed.

Lemma extends_by_event s s' ev :
  trace s' = trace s ++ [ev] -> ok ev = true -> extends_by ok s s'.
Proof. intros E H. exists [ev]. split; [exact E | simpl; by rewrite H]. Qed.

Lemma traces_ret {A} (a : A) : traces ok (ret a).
Proof. intros s. apply extends_by_refl. Qed.

Lemma traces_raise {A} e : traces ok (@raise A e).
Proof. intros s. apply extends_by_refl. Qed.

Lemma traces_bind {A B} (m : M A) (k : A -> M B) :
  traces ok m -> (forall a, traces ok (k a)) -> traces ok (bind m k).
Proof.
  intros Hm Hk s. unfold bind. specialize (Hm s).
  destruct (m s) as [[a|e] s1]; simpl in *; [|exact Hm].
  eapply extends_by_trans; [exact Hm | apply Hk].
Qed.

Lemma traces_try_except {A} (body handler : M A) :
  traces ok body -> traces ok handler -> traces ok (try_except body handler).
Proof.
  intros Hb Hh s. unfold try_except. specialize (Hb s).
  destruct (body s) as [[a|e] s1]; simpl in *; [exact Hb|].
  eapply extends_by_trans; [exact Hb | apply Hh].
Qed.

Lemma traces_try_except_only {A} catch (body handler : M A) :
  traces ok body -> traces ok handler -> traces ok (try_except_only catch body handler).
Proof.
  intros Hb Hh s. unfold try_except_only. specialize (Hb s).
  destruct (body s) as [[a|e] s1]; simpl in *; [exact Hb|].
  destruct (catch e); simpl; [|exact Hb].
  eapply extends_by_trans; [exact Hb | apply Hh].
Qed.

Lemma traces_get_fs : traces ok get_fs.
Proof. intros s. apply extends_by_refl. Qed.

Lemma traces_set_fs f : traces ok (set_fs f).
Proof. intros s. by apply extends_by_same_trace. Qed.

Lemma traces_log ev : ok ev = true -> traces ok (log ev).
Proof. intros H s. by eapply extends_by_event. Qed.

Lemma traces_path_exists p : traces ok (path_exists p).
Proof. intros s. apply extends_by_refl. Qed.

Lemma traces_write p c : traces ok (write p c).
Proof. apply traces_set_fs. Qed.

Lemma traces_read p : traces ok (read p).
Proof.
  apply traces_bind; [apply traces_get_fs|]. intros f.
  destruct (f !! p); [apply traces_ret | apply traces_raise].
Qed.

Lemma traces_unlink p : traces ok (unlink p).
Proof.
  apply traces_bind; [apply traces_get_fs|]. intros f.
  destruct (is_file f p); [apply traces_set_fs | apply traces_raise].
Qed.

Lemma traces_zip_open p : traces ok (zip_open p).
Proof.
  apply traces_bind; [apply traces_read|]. intros [].
  all: first [apply traces_ret | apply traces_raise].
Qed.

Lemma traces_shutil_copy src dst : traces ok (shutil_copy src dst).
Proof.
  apply traces_bind; [apply traces_read|]. intros c. apply traces_write.
Qed.

Lemma traces_shutil_which env n :
  ok (Which n) = true -> traces ok (shutil_which env n).
Proof.
  intros H. apply traces_bind; [by apply traces_log|]. intros _.
  apply traces_ret.
Qed.

Lemma traces_subprocess_run env t out :
  ok (Run t) = true -> traces ok (subprocess_run env t out).
Proof.
  intros H. apply traces_bind; [by apply traces_log|]. intros _.
  apply traces_bind; [apply traces_get_fs|]. intros f.
  destruct (tool env t f).
  - apply traces_bind; [apply traces_set_fs|]. intros _. apply traces_raise.
  - apply traces_bind; [apply traces_set_fs|]. intros _. apply traces_ret.
Qed.

Lemma traces_TemporaryDirectory {A} (body : M A) :
  traces ok body -> traces ok (TemporaryDirectory body).
Proof.
  intros Hb s. unfold TemporaryDirectory. specialize (Hb (enter s)).
  unfold enter in Hb. destruct (body _) as [r s1]. exact Hb.
Qed.

End Traces.

(** One step of a proof that a computation only makes admitted interactions. *)
Ltac traces_step :=
  lazymatch goal with
  | |- traces _ (bind _ _) => apply traces_bind; [|intros ?]
  | |- traces _ (ret _) => apply traces_ret
  | |- traces _ (raise _) => apply traces_raise
  | |- traces _ (try_except _ _) => apply traces_try_except
  | |- traces _ (try_except_only _ _ _) => apply traces_try_except_only
  | |- traces _ get_fs => apply traces_get_fs
  | |- traces _ (set_fs _) => apply traces_set_fs
  | |- traces _ (path_exists _) => apply traces_path_exists
  | |- traces _ (write _ _) => apply traces_write
  | |- traces _ (read _) => apply traces_read
  | |- traces _ (unlink _) => apply traces_unlink
  | |- traces _ (zip_open _) => apply traces_zip_open
  | |- traces _ (shutil_copy _ _) => apply traces_shutil_copy
  | |- traces _ (shutil_which _ _) => apply traces_shutil_which; reflexivity
  | |- traces _ (subprocess_run _ _ _) => apply traces_subprocess_run; reflexivity
  | |- traces _ (TemporaryDirectory _) => apply traces_TemporaryDirectory
  | |- traces _ (if ?b then _ else _) => destruct b
  | |- traces _ (match ?x with _ => _ end) => destruct x
  end.

Ltac traces_steps := cbv zeta; repeat traces_step.

Lemma create_prebuilt_dex_traces env self :
  traces not_compiling (_create_prebuilt_dex env self work_dir).
Proof.
  unfold _create_prebuilt_dex, _write_minimal_dex_placeholder. traces_steps.
Qed.

Lemma create_minimal_dex_traces env self :
  traces not_compiling (_create_minimal_dex env self work_dir).
Proof.
  unfold _create_minimal_dex. traces_steps.
  all: apply create_prebuilt_dex_traces.
Qed.

Lemma generate_traces env self : traces not_compiling (generate env self).
Proof.
  unfold generate, assemble, sign_and_align, align_or_copy, _align_apk,
    _sign_apk, subprocess_run_check, build_apk_structure, _create_resources.
  traces_steps.
  all: apply create_minimal_dex_traces.
Qed.

Lemma main_traces env args : traces not_compiling (main env args).
Proof.
  unfold main, generate_and_exit, __init__, _check_dependencies, for_each.
  traces_steps.
  all: apply generate_traces.
Qed.

(** ** The bytecode cascade *)

Lemma bind_assoc {A B C} (m : M A) (k : A -> M B) (k' : B -> M C) s :
  bind (bind m k) k' s = bind m (fun a => bind (k a) k') s.
Proof. unfold bind. destruct (m s) as [[a|e] s1]; reflexivity. Qed.

Lemma bind_ext {A B} (m : M A) (k k' : A -> M B) s :
  (forall a s1, k a s1 = k' a s1) -> bind m k s = bind m k' s.
Proof. intros H. unfold bind. destruct (m s) as [[a|e] s1]; [apply H|reflexivity]. Qed.

Lemma create_prebuilt_dex_is_cascade env self s :
  _create_prebuilt_dex env self work_dir s
  = cascade [externally_built_strategy env self] placeholder_strategy s.
Proof.
  unfold cascade, externally_built_strategy. cbv zeta.
  rewrite bind_assoc. reflexivity.
Qed.

(** C4, as stated, fails: on a machine on which the Compile strategy would
    go through and yield a file, the cascade of the source does not try it.
    It looks for the assembler first, never calls the compiler, and ends with
    the placeholder, where the cascade that starts at the compiler ends with
    the converted bytecode. *)
Lemma compiler_is_not_tried_first :
  fst (compile_strategy with_compiler test_generator (enter sdk_state))
  = Ok (Some dex_file)
  /\ trace (snd (cascade_from_compiler with_compiler test_generator
                   (enter sdk_state)))
     = [Run javac; Which "d8"; Run d8]
  /\ fs (snd (cascade_from_compiler with_compiler test_generator
                (enter sdk_state))) !! dex_file
     = Some (Binary (MINIMAL_DEX_HEADER ++ [1; 2; 3]))
  /\ trace (snd (_create_minimal_dex with_compiler test_generator work_dir
                   (enter sdk_state)))
     = [Which "smali"]
  /\ fs (snd (_create_minimal_dex with_compiler test_generator work_dir
                (enter sdk_state))) !! dex_file
     = Some (Binary minimal_dex_placeholder)
  /\ _create_minimal_dex with_compiler test_generator work_dir (enter sdk_state)
     <> cascade_from_compiler with_compiler test_generator (enter sdk_state).
Proof.
  split; [vm_compute; reflexivity|].
  split; [vm_compute; reflexivity|].
  split; [vm_compute; reflexivity|].
  split; [vm_compute; reflexivity|].
  split; [vm_compute; reflexivity|].
  intros H. apply (f_equal (fun rs => trace (snd rs))) in H.
  vm_compute in H. discriminate.
Qed.

(** C4, amended: bytecode acquisition is a linear cascade of three
    strategies, Assemble, Externally-built and Placeholder, tried in this
    order, each later one only if the one before it yields no file. The
    Compile strategy is not part of it: no run of [generate] looks for the
    bytecode converter or calls it or the compiler. *)
Theorem bytecode_cascade_starts_at_assembler env self s :
  _create_minimal_dex env self work_dir s = cascade_from_assembler env self s
  /\ extends_by not_compiling s (snd (generate env self s)).
Proof.
  split; [|apply generate_traces].
  unfold _create_minimal_dex, cascade_from_assembler, cascade,
    assemble_strategy. cbv zeta.
  rewrite bind_assoc. apply bind_ext. intros _ s1.
  rewrite bind_assoc. apply bind_ext. intros smali_path s2.
  apply bind_ext. intros [dex|] s3; [reflexivity|].
  apply create_prebuilt_dex_is_cascade.
Qed.

(** ** Accepted and rejected identifiers *)







(** * Further properties of the code *)

(** ** [_sign_apk] in full *)

Lemma wp_equation {A} (m : M A) s (x : result A * state) :
  wp m s (fun r s' => (r, s') = x) -> m s = x.
Proof. unfold wp. destruct (m s). exact id. Qed.






(** ** The bytecode cascade, strategy by strategy *)


(** X4: when the assembler is on the search path and its first invocation
    returns with [classes.dex] in place, that file is the result whatever
    the exit status was; the second syntax, the repackaging tool and the
    placeholder are not touched. *)
Theorem assembler_output_is_taken env self s rc w :
  Str.truthy (which env "smali") = true ->
  tool env smali_assemble (with_smali_source self (fs s)) = Returns rc w ->
  is_file (apply_effect w dex_file (with_smali_source self (fs s))) dex_file = true ->
  _create_minimal_dex env self work_dir s
  = (Ok dex_file,
     {| fs := apply_effect w dex_file (with_smali_source self (fs s));
        trace := (trace s ++ [Which "smali"]) ++ [Run smali_assemble] |}).
Proof.
  unfold with_smali_source. cbv zeta. intros Hwhich Htool Hfile.
  apply wp_equation. unfold _create_minimal_dex. cbv zeta. fold dex_file.
  wp_steps. reflexivity.
Qed.

Lemma assembler_output_witness :
  _create_minimal_dex (with_assembler (Returns 1 (Put assembled_bytes))
                                      (Raises FileNotFoundError Keep))
    test_generator work_dir empty_state
  = (Ok dex_file,
     {| fs := apply_effect (Put assembled_bytes) dex_file
                (with_smali_source test_generator (fs empty_state));
        trace := (trace empty_state ++ [Which "smali"]) ++ [Run smali_assemble] |}).
Proof.
  apply (assembler_output_is_taken
           (with_assembler (Returns 1 (Put assembled_bytes))
                           (Raises FileNotFoundError Keep))
           test_generator empty_state 1 (Put assembled_bytes)).
  - reflexivity.
  - reflexivity.
  - vm_compute. reflexivity.
Defined.



Lemma create_prebuilt_dex_no_second_syntax env self :
  traces not_second_syntax (_create_prebuilt_dex env self work_dir).
Proof.
  unfold _create_prebuilt_dex, _write_minimal_dex_placeholder. traces_steps.
Qed.

(** X6: an exception from the first invocation of the assembler (a time-out,
    say) ends the Assemble strategy at once: the second syntax is not tried,
    and the cascade goes on with the repackaging tool. *)
Theorem assembler_exception_skips_second_syntax env self s e w :
  Str.truthy (which env "smali") = true ->
  tool env smali_assemble (with_smali_source self (fs s)) = Raises e w ->
  _create_minimal_dex env self work_dir s
  = _create_prebuilt_dex env self work_dir
      {| fs := apply_effect w dex_file (with_smali_source self (fs s));
         trace := (trace s ++ [Which "smali"]) ++ [Run smali_assemble] |}
  /\ extends_by not_second_syntax s
       (snd (_create_minimal_dex env self work_dir s)).
Proof.
  unfold with_smali_source. cbv zeta. intros Hwhich Htool.
  assert (Heq : _create_minimal_dex env self work_dir s
                = _create_prebuilt_dex env self work_dir
                    {| fs := apply_effect w dex_file
                               (<[work_dir // "smali"
                                  // Str.replace (package_name self) "." "/"
                                  // "MainActivity.smali"
                                  := Text (smali_code self
                                             (Str.replace (package_name self) "." "/"))]>
                                  (fs s));
                       trace := (trace s ++ [Which "smali"]) ++ [Run smali_assemble] |}).
  { apply wp_equation. unfold _create_minimal_dex. cbv zeta. fold dex_file.
    wp_steps. unfold wp. symmetry. apply surjective_pairing. }
  split; [exact Heq|]. rewrite Heq.
  eapply extends_by_trans;
    [|apply (create_prebuilt_dex_no_second_syntax env self)].
  exists [Which "smali"; Run smali_assemble]. cbn [trace].
  split; [by rewrite <- app_assoc | reflexivity].
Qed.

Lemma assembler_exception_witness :
  extends_by not_second_syntax empty_state
    (snd (_create_minimal_dex
            (with_assembler (Raises TimeoutExpired Keep)
                            (Returns 0 (Put assembled_bytes)))
            test_generator work_dir empty_state)).
Proof.
  apply (assembler_exception_skips_second_syntax
           (with_assembler (Raises TimeoutExpired Keep)
                           (Returns 0 (Put assembled_bytes)))
           test_generator empty_state TimeoutExpired Keep).
  - reflexivity.
  - reflexivity.
Defined.

Lemma name_in_false_zip_read (ms : list member) n :
  name_in n (namelist ms) = false -> zip_read ms n = None.
Proof.
  intros H. unfold zip_read.
  destruct (find _ (rev ms)) as [[n' c]|] eqn:E; [|reflexivity].
  apply find_some in E as [Hin Heq]. simpl in Heq.
  apply String.eqb_eq in Heq. subst n'.
  apply in_rev, list_elem_of_In in Hin.
  apply (list_elem_of_fmap_2 fst) in Hin.
  apply name_in_elem in Hin.
  assert (Ht : name_in n (namelist ms) = true) by exact Hin. congruence.
Qed.

Lemma is_file_insert_ne (f : filesystem) p q c :
  p <> q -> is_file (<[p := c]> f) q = is_file f q.
Proof. intros H. unfold is_file. by rewrite lookup_insert_ne. Qed.

(** X7: without an assembler and with the repackaging tool's jar beside the
    script, the bytecode is the member [classes.dex] of the archive that the
    tool built; if what the tool left is not an archive, or has no such
    member, this is not an error: the placeholder is written instead. *)
Theorem externally_built_bytecode env self s built :
  Str.truthy (which env "smali") = false ->
  is_file (fs s) (Disk (script_dir env) // "tools" // "apktool.jar") = true ->
  (forall f, exists rc, tool env apktool_b f = Returns rc (Put built)) ->
  exists s',
    _create_minimal_dex env self work_dir s = (Ok dex_file, s')
    /\ fs s' !! dex_file
       = Some (default (Binary minimal_dex_placeholder) (bytecode_of_built built)).
Proof.
  intros Hwhich Hjar Htool.
  apply wp_returns. unfold _create_minimal_dex, _create_prebuilt_dex,
    _write_minimal_dex_placeholder. cbv zeta. fold dex_file.
  wp_steps.
  all: repeat match goal with
         | H : find _ _ = _ |- _ =>
             cbn [find] in H;
             rewrite is_file_insert_ne in H by discriminate;
             rewrite Hjar in H; simplify_eq
         | H : is_file (<[_ := _]> _) (Disk _ // _ // _) = false |- _ =>
             rewrite is_file_insert_ne in H by discriminate;
             rewrite Hjar in H; discriminate H
         | H : tool _ apktool_b ?f = _ |- _ =>
             destruct (Htool f) as [? Ht]; rewrite Ht in H; clear Ht;
             simplify_eq
         end.
  all: cbn [apply_effect] in *.
  all: repeat match goal with
         | H : <[?p := ?c]> ?f !! ?p = _ |- _ =>
             rewrite lookup_insert_eq in H; simplify_eq
         | H : is_file (<[?p := ?c]> ?f) ?p = false |- _ =>
             unfold is_file in H; rewrite lookup_insert_eq in H; discriminate H
         end.
  all: cbn [bytecode_of_built default].
  all: try match goal with
         | H : name_in _ (namelist ?ms) = false |- _ =>
             rewrite (name_in_false_zip_read _ _ H)
         | H : zip_read ?ms _ = _ |- _ => rewrite H
         end.
  all: cbn [default]; split; [reflexivity | apply lookup_insert_eq].
Qed.

(** The tool's archive holds bytecode: it ends up as [classes.dex]. *)
Lemma externally_built_witness :
  exists s',
    _create_minimal_dex
      (with_apktool (Returns 0 (Put (Archive [("classes.dex", assembled_bytes);
                                              ("AndroidManifest.xml", Binary [3])]))))
      test_generator work_dir apktool_state = (Ok dex_file, s')
    /\ fs s' !! dex_file = Some assembled_bytes.
Proof.
  apply (externally_built_bytecode
           (with_apktool (Returns 0 (Put (Archive [("classes.dex", assembled_bytes);
                                                   ("AndroidManifest.xml", Binary [3])]))))
           test_generator apktool_state
           (Archive [("classes.dex", assembled_bytes);
                     ("AndroidManifest.xml", Binary [3])])).
  - reflexivity.
  - vm_compute. reflexivity.
  - intros f. exists 0. reflexivity.
Defined.

(** ** Resource compilation *)


(** X9: when no platform archive is found, [_create_resources] returns
    [None] at once: the resource compiler is not called and nothing but the
    two input files is written. *)
Theorem no_platform_archive_no_resource_compiler env self s :
  _find_android_jar env (with_resource_sources self (fs s)) = None ->
  _create_resources env self work_dir s
  = (Ok None, {| fs := with_resource_sources self (fs s); trace := trace s |}).
Proof.
  unfold with_resource_sources, manifest_file, strings_file. intros Hjar.
  apply wp_equation. unfold _create_resources. cbv zeta.
  wp_steps. reflexivity.
Qed.

Lemma no_platform_archive_witness :
  _create_resources offline test_generator work_dir empty_state
  = (Ok None, {| fs := with_resource_sources test_generator (fs empty_state);
                 trace := trace empty_state |}).
Proof.
  apply (no_platform_archive_no_resource_compiler offline test_generator empty_state).
  vm_compute. reflexivity.
Defined.




(** ** [_compile_java_to_dex] *)

(** X11: when the compiler exits with a non-zero status, is missing or
    times out, [_compile_java_to_dex] returns [None] right after that call:
    no bytecode converter is looked up or run. *)
Theorem failed_compiler_gives_no_bytecode env self wd jf s jar :
  _find_android_jar env (fs s) = Some jar ->
  javac_gave_up (tool env javac (fs s)) = true ->
  fst (_compile_java_to_dex env self wd jf s) = Ok None
  /\ trace (snd (_compile_java_to_dex env self wd jf s)) = trace s ++ [Run javac].
Proof.
  intros Hjar Hfail.
  cut (wp (_compile_java_to_dex env self wd jf) s
          (fun r s' => r = Ok None /\ trace s' = trace s ++ [Run javac]));
    [exact id|].
  unfold _compile_java_to_dex. cbv zeta.
  destruct (tool env javac (fs s)) as [e w|rc w] eqn:Ho;
    cbn [javac_gave_up caught_around_javac] in Hfail.
  - destruct e; try discriminate Hfail; wp_steps; split; reflexivity.
  - destruct (rc =? 0) eqn:Hrc; [discriminate Hfail|].
    wp_steps.
    all: try match goal with
           | H : negb (?x =? 0) = false, H' : (?x =? 0) = false |- _ =>
               rewrite H' in H; discriminate H
           end.
    split; reflexivity.
Qed.

Lemma failed_compiler_witness :
  fst (_compile_java_to_dex (with_javac (Returns 1 Keep)) test_generator
         work_dir java_file sdk_state) = Ok None
  /\ trace (snd (_compile_java_to_dex (with_javac (Returns 1 Keep)) test_generator
                   work_dir java_file sdk_state))
     = trace sdk_state ++ [Run javac].
Proof.
  apply (failed_compiler_gives_no_bytecode
           (with_javac (Returns 1 Keep)) test_generator work_dir java_file
           sdk_state
           (Disk ["usr"; "lib"; "android-sdk"; "platforms"; "android-23";
                  "android.jar"])).
  - vm_compute. reflexivity.
  - reflexivity.
Defined.

(** X12: any other exception of the compiler call is not caught:
    [_compile_java_to_dex] ends with that exception. *)
Theorem compiler_exception_escapes env self wd jf s jar e w :
  _find_android_jar env (fs s) = Some jar ->
  tool env javac (fs s) = Raises e w ->
  caught_around_javac e = false ->
  fst (_compile_java_to_dex env self wd jf s) = Exn e.
Proof.
  intros Hjar Ho He.
  cut (wp (_compile_java_to_dex env self wd jf) s (fun r _ => r = Exn e));
    [exact id|].
  unfold _compile_java_to_dex. cbv zeta.
  destruct e; try discriminate He; wp_steps; reflexivity.
Qed.

Lemma compiler_exception_witness :
  fst (_compile_java_to_dex (with_javac (Raises OSError Keep)) test_generator
         work_dir java_file sdk_state) = Exn OSError.
Proof.
  apply (compiler_exception_escapes
           (with_javac (Raises OSError Keep)) test_generator work_dir java_file
           sdk_state
           (Disk ["usr"; "lib"; "android-sdk"; "platforms"; "android-23";
                  "android.jar"])
           OSError Keep).
  - vm_compute. reflexivity.
  - reflexivity.
  - reflexivity.
Defined.

(** X13: whenever [_compile_java_to_dex] returns a path, it is
    [classes.dex] in the given directory and the file exists; the compiler
    was run, and the second converter was looked up only if the first one
    gave nothing. *)
Theorem compiled_bytecode_exists env self wd jf s p s' :
  _compile_java_to_dex env self wd jf s = (Ok (Some p), s') ->
  p = wd // "classes.dex"
  /\ is_file (fs s') p = true
  /\ Run javac ∈ trace s'
  /\ (Which "dx" ∈ trace s' -> Run d8 ∈ trace s' \/ Str.truthy (which env "d8") = false).
Proof.
  intros Hrun.
  cut (wp (_compile_java_to_dex env self wd jf) s
          (fun r s1 =>
             forall q, r = Ok (Some q) ->
               q = wd // "classes.dex"
               /\ is_file (fs s1) q = true
               /\ Run javac ∈ trace s1
               /\ (Which "dx" ∈ trace s1 ->
                   Run d8 ∈ trace s1 \/ Str.truthy (which env "d8") = false))).
  { intros H. exact (run_wp _ _ _ _ _ Hrun H p eq_refl). }
  unfold _compile_java_to_dex. cbv zeta.
  wp_steps; intros q Hq; try discriminate Hq.
  all: try match type of Hq with
         | Ok (if ?b then _ else _) = _ => destruct b eqn:?
         end; try discriminate Hq.
  all: injection Hq as <-.
  all: split; [reflexivity|split; [assumption|split]].
  all: try (intros _; first [ right; reflexivity | right; assumption | left ]).
  all: repeat (apply elem_of_app;
               first [ right; apply elem_of_cons; left; reflexivity | left ]).
Qed.

Lemma compiled_bytecode_witness :
  dex_file = work_dir // "classes.dex"
  /\ is_file
       (fs (snd (_compile_java_to_dex with_compiler test_generator work_dir
                   java_file sdk_state)))
       dex_file = true
  /\ Run javac
     ∈ trace (snd (_compile_java_to_dex with_compiler test_generator work_dir
                     java_file sdk_state))
  /\ (Which "dx"
      ∈ trace (snd (_compile_java_to_dex with_compiler test_generator work_dir
                      java_file sdk_state)) ->
      Run d8
      ∈ trace (snd (_compile_java_to_dex with_compiler test_generator work_dir
                      java_file sdk_state))
      \/ Str.truthy (which with_compiler "d8") = false).
Proof.
  apply (compiled_bytecode_exists with_compiler test_generator work_dir
           java_file sdk_state dex_file
           (snd (_compile_java_to_dex with_compiler test_generator work_dir
                   java_file sdk_state))).
  vm_compute. reflexivity.
Defined.

(** ** The loop that merges the resource archive *)

Lemma find_app_first {A} (f : A -> bool) (l1 l2 : list A) :
  find f (l1 ++ l2)
  = match find f l1 with
    | Some a => Some a
    | None => find f l2
    end.
Proof.
  induction l1 as [|a l1 IH]; simpl; [reflexivity|].
  destruct (f a); [reflexivity | exact IH].
Qed.

(** Reading from an archive that was appended to: the appended members
    shadow the earlier ones. *)
Lemma zip_read_app (ms extra : list member) x :
  zip_read (ms ++ extra) x
  = match zip_read extra x with
    | Some c => Some c
    | None => zip_read ms x
    end.
Proof.
  unfold zip_read. rewrite rev_app_distr, find_app_first.
  destruct (find _ (rev extra)); reflexivity.
Qed.

Lemma zip_read_is_Some (ms : list member) n :
  n ∈ namelist ms -> is_Some (zip_read ms n).
Proof.
  intros Hin. destruct (zip_read ms n) eqn:E; [eauto|].
  exfalso. apply name_in_elem in Hin.
  destruct (name_in n (namelist ms)) eqn:E'; [|discriminate Hin].
  clear Hin. unfold zip_read in E.
  destruct (find _ (rev ms)) eqn:F; [discriminate E|].
  apply name_in_elem, list_elem_of_fmap in E' as ([n' c] & -> & Hm).
  apply list_elem_of_In, in_rev in Hm.
  apply (find_none _ _ F) in Hm. simpl in Hm.
  rewrite String.eqb_refl in Hm. discriminate Hm.
Qed.

Lemma name_in_cons x n names :
  name_in x (n :: names) = String.eqb x n || name_in x names.
Proof. reflexivity. Qed.

Lemma name_in_snoc x n (ms : list member) c :
  name_in x (namelist (ms ++ [(n, c)]))
  = name_in x (namelist ms) || String.eqb x n.
Proof.
  unfold name_in. rewrite namelist_app, existsb_app. simpl.
  by rewrite orb_false_r.
Qed.

Lemma zip_read_snoc (ms : list member) n c x :
  zip_read (ms ++ [(n, c)]) x
  = if String.eqb x n then Some c else zip_read ms x.
Proof.
  rewrite zip_read_app. unfold zip_read at 1. simpl.
  rewrite (String.eqb_sym n x). destruct (String.eqb x n); reflexivity.
Qed.

(** What the loop over any list of names leaves to be read. *)
Lemma fold_add_member_read res names zf x :
  zip_read (fold_left (add_member res) names zf) x
  = if name_in x (namelist zf) then zip_read zf x
    else if name_in x names then zip_read res x
    else None.
Proof.
  revert zf. induction names as [|n names IH]; intros zf; simpl fold_left.
  - destruct (name_in x (namelist zf)) eqn:E; [reflexivity|].
    by apply name_in_false_zip_read.
  - rewrite IH, name_in_cons. unfold add_member.
    destruct (String.eqb x n) eqn:Exn.
    + apply String.eqb_eq in Exn. subst x.
      destruct (name_in n (namelist zf)) eqn:E; cbn [negb orb]; [by rewrite E|].
      destruct (zip_read res n) as [d|] eqn:R.
      * by rewrite name_in_snoc, E, zip_read_snoc, String.eqb_refl.
      * rewrite E. by destruct (name_in n names).
    + destruct (name_in n (namelist zf)) eqn:E; cbn [negb orb]; [reflexivity|].
      destruct (zip_read res n) as [d|] eqn:R; [|reflexivity].
      by rewrite name_in_snoc, zip_read_snoc, Exn, orb_false_r.
Qed.

Lemma add_member_names res zf n x :
  n ∈ namelist res ->
  x ∈ namelist (add_member res zf n) <-> x ∈ namelist zf \/ x = n.
Proof.
  intros Hn. unfold add_member.
  destruct (name_in n (namelist zf)) eqn:E; cbn [negb].
  - apply name_in_elem in E. split; [by left|]. by intros [H| ->].
  - destruct (zip_read_is_Some res n Hn) as [d ->].
    rewrite namelist_app, elem_of_app. simpl.
    by rewrite list_elem_of_singleton.
Qed.

Lemma fold_add_member_names res names zf x :
  (forall n, n ∈ names -> n ∈ namelist res) ->
  x ∈ namelist (fold_left (add_member res) names zf)
  <-> x ∈ namelist zf \/ x ∈ names.
Proof.
  revert zf. induction names as [|n names IH]; intros zf Hsub; simpl fold_left.
  - split; [by left|]. intros [H|H]; [exact H|]. by apply elem_of_nil in H.
  - rewrite IH by (intros m Hm; apply Hsub, elem_of_cons; by right).
    rewrite add_member_names by (apply Hsub, elem_of_cons; by left).
    rewrite elem_of_cons. tauto.
Qed.

Lemma fold_add_member_present res names zf :
  (forall n, n ∈ names -> n ∈ namelist zf) ->
  fold_left (add_member res) names zf = zf.
Proof.
  induction names as [|n names IH]; intros Hsub; simpl; [reflexivity|].
  assert (E : name_in n (namelist zf) = true).
  { apply name_in_elem, Hsub, elem_of_cons. by left. }
  unfold add_member at 2. rewrite E. cbn [negb].
  apply IH. intros m Hm. apply Hsub, elem_of_cons. by right.
Qed.

(** X14: after the merging loop the archive has exactly the names it had
    before and the names of the resource archive. *)
Theorem merged_archive_names zf res x :
  x ∈ namelist (add_resources zf res)
  <-> x ∈ namelist zf \/ x ∈ namelist res.
Proof. unfold add_resources. by apply fold_add_member_names. Qed.

(** X15: reading a name from the merged archive gives the member the
    archive had before the loop if it had one of that name, and otherwise
    what the resource archive holds under that name: members that were
    already there are never replaced. *)
Theorem merged_archive_contents zf res x :
  zip_read (add_resources zf res) x
  = if name_in x (namelist zf) then zip_read zf x else zip_read res x.
Proof.
  unfold add_resources. rewrite fold_add_member_read.
  destruct (name_in x (namelist zf)); [reflexivity|].
  destruct (name_in x (namelist res)) eqn:E; [reflexivity|].
  symmetry. by apply name_in_false_zip_read.
Qed.

(** X16: merging the same resource archive a second time changes nothing. *)
Theorem merging_twice_changes_nothing zf res :
  add_resources (add_resources zf res) res = add_resources zf res.
Proof.
  unfold add_resources at 1. apply fold_add_member_present.
  intros n Hn. apply fold_add_member_names; [done | by right].
Qed.

(** ** [_find_android_jar] *)

Section SortFacts.
Context {A : Type} (le : A -> A -> bool).
Hypothesis le_total : forall a b, le a b = true \/ le b a = true.
Hypothesis le_trans : forall a b c, le a b = true -> le b c = true -> le a c = true.

Lemma insert_by_elem x l y : y ∈ insert_by le x l <-> y = x \/ y ∈ l.
Proof.
  induction l as [|z l IH]; simpl.
  - rewrite list_elem_of_singleton. split; [by left|].
    intros [H|H]; [exact H | by apply elem_of_nil in H].
  - destruct (le x z).
    + rewrite elem_of_cons. tauto.
    + rewrite !elem_of_cons, IH. tauto.
Qed.

Lemma sort_by_elem l y : y ∈ sort_by le l <-> y ∈ l.
Proof.
  induction l as [|x l IH]; simpl; [tauto|].
  rewrite insert_by_elem, elem_of_cons, IH. tauto.
Qed.



End SortFacts.




(** The pairs that the scan collects are the candidates. *)
Lemma scan_collects f d api jar :
  (api, jar)
  ∈ omap (fun name =>
            let jar_path := Disk (d ++ [name; "android.jar"]) in
            if is_file f jar_path then
              Str.int (hd "" (Str.split (Str.replace name "android-" "") "."))
                ≫= (fun api_level => Some (api_level, jar_path))
            else None)
         (iterdir f d)
  <-> exists name, candidate f d name api /\ jar = Disk (d ++ [name; "android.jar"]).
Proof.
  rewrite list_elem_of_omap. unfold candidate, api_level_of. cbv zeta. split.
  - intros (name & Hin & H). exists name.
    destruct (is_file f _) eqn:E; [|discriminate H].
    destruct (Str.int _) as [a|] eqn:Ea; [|discriminate H].
    simpl in H. injection H as <- <-. auto.
  - intros (name & (Hin & E & Ea) & ->). exists name. split; [exact Hin|].
    rewrite E, Ea. reflexivity.
Qed.





Lemma find_is_file f l p : find (is_file f) l = Some p -> is_file f p = true.
Proof. intros H. by apply find_some in H as [_ H]. Qed.

Lemma scan_platforms_is_file f d p :
  scan_platforms f d = Some p -> is_file f p = true.
Proof.
  unfold scan_platforms. cbv zeta. intros H.
  destruct (head (sort_by platform_le _)) as [[api j]|] eqn:Hh; [|discriminate H].
  simpl in H. injection H as <-.
  apply head_Some_elem_of in Hh.
  apply sort_by_elem, scan_collects in Hh as (name & (_ & E & _) & ->).
  exact E.
Qed.

(** X19: whatever [_find_android_jar] returns is a file that exists, on
    each of its four ways to an answer. *)
Theorem found_platform_archive_exists env f p :
  _find_android_jar env f = Some p -> is_file f p = true.
Proof.
  unfold _find_android_jar, or_else. cbv zeta. intros H.
  destruct (find (is_file f) known_paths) eqn:E1.
  { injection H as ->. eapply find_is_file; exact E1. }
  destruct (if is_dir f _ then scan_platforms f _ else None) eqn:E2.
  { injection H as ->. revert E2.
    destruct (is_dir f _); [|intros E; discriminate E].
    apply scan_platforms_is_file. }
  destruct (match str_or _ _ with Some _ => _ | None => _ end) eqn:E3.
  { injection H as ->. revert E3.
    destruct (str_or _ _) as [h|]; [|intros E; discriminate E].
    destruct (String.eqb h ""); [intros E; discriminate E|].
    destruct (is_dir f (resolve (cwd env) h ++ ["platforms"]));
      [|intros E; discriminate E].
    apply scan_platforms_is_file. }
  eapply find_is_file; exact H.
Qed.

Lemma found_platform_archive_witness :
  is_file (fs platforms_state)
    (Disk ["usr"; "lib"; "android-sdk"; "platforms"; "android-26"; "android.jar"])
  = true.
Proof.
  apply (found_platform_archive_exists offline (fs platforms_state)).
  vm_compute. reflexivity.
Defined.



(** ** [generate] and [main] as a whole *)






(** ** The checksum field *)

(** X25: filling the checksum field of a container changes bytes 8 to 11
    and nothing else, and afterwards the field holds the Adler-32 checksum
    of everything behind it. *)
Theorem checksum_field_is_the_only_change (dex_data : bytes) :
  (12 <= length dex_data)%nat ->
  firstn 8 (fill_checksum dex_data) = firstn 8 dex_data
  /\ skipn 12 (fill_checksum dex_data) = skipn 12 dex_data
  /\ length (fill_checksum dex_data) = length dex_data
  /\ recomputed_checksum (fill_checksum dex_data)
     = stored_checksum (fill_checksum dex_data).
Proof.
  intros Hlen.
  destruct (fill_checksum_self_consistent dex_data Hlen) as [Hl Hc].
  split; [|split; [|split; assumption]].
  - unfold fill_checksum, set_slice. cbv zeta.
    rewrite take_app_length'; [reflexivity|]. rewrite length_firstn. lia.
  - unfold fill_checksum, set_slice. cbv zeta.
    rewrite app_assoc. rewrite drop_app_length'; [reflexivity|].
    rewrite length_app, length_firstn, length_to_bytes_little. lia.
Qed.

Lemma checksum_field_witness :
  firstn 8 (fill_checksum dex_data0) = firstn 8 dex_data0
  /\ skipn 12 (fill_checksum dex_data0) = skipn 12 dex_data0
  /\ length (fill_checksum dex_data0) = length dex_data0
  /\ recomputed_checksum (fill_checksum dex_data0)
     = stored_checksum (fill_checksum dex_data0).
Proof.
  apply (checksum_field_is_the_only_change dex_data0).
  simpl. lia.
Defined.

(** ** The dependency check *)

(** X26: what [shutil.which] answers matters for one name only, [smali]:
    two machines that differ in nothing but the answers for other names
    make [main] do the same. In particular the dependency check of
    [__init__] is advisory: the four tools it asks about are called
    whether they were found or not. *)
Theorem dependency_check_is_advisory env reported args s :
  reported "smali" = which env "smali" ->
  main (with_which env reported) args s = main env args s.
Proof.
  intros H.
  unfold main, generate_and_exit, __init__, _check_dependencies, generate,
    assemble, _create_minimal_dex, shutil_which.
  change (which (with_which env reported)) with reported.
  rewrite H. reflexivity.
Qed.

Lemma dependency_check_witness :
  main (with_which offline all_found) (test_args "com.test.app") empty_state
  = main offline (test_args "com.test.app") empty_state.
Proof.
  apply (dependency_check_is_advisory offline all_found
           (test_args "com.test.app") empty_state).
  reflexivity.
Defined.

(** ** The output path *)

Lemma chars_app a b : Str.chars (a +:+ b) = Str.chars a ++ Str.chars b.
Proof.
  unfold Str.chars. induction a as [|c a IH]; simpl; [reflexivity|].
  by rewrite IH.
Qed.

Lemma chars_of_chars cs : Str.chars (Str.of_chars cs) = cs.
Proof. apply list_ascii_of_string_of_list_ascii. Qed.

(** A text without the separator is one field. *)
Lemma split_go_no_sep sep cur t :
  forallb (fun c => negb (Str.eqc c sep)) t = true ->
  Str.split_go sep cur t = [Str.of_chars (rev cur ++ t)].
Proof.
  revert cur. induction t as [|c t IH]; intros cur H; simpl.
  - by rewrite app_nil_r.
  - simpl in H. apply andb_true_iff in H as [Hc Ht].
    destruct (Str.eqc c sep); [discriminate Hc|].
    rewrite IH by exact Ht. simpl. by rewrite <- app_assoc.
Qed.

(** The last field of a text that ends with separator-free characters ends
    with them. *)
Lemma split_go_suffix sep cur s t :
  forallb (fun c => negb (Str.eqc c sep)) t = true ->
  exists fields w,
    Str.split_go sep cur (s ++ t) = fields ++ [Str.of_chars (w ++ t)].
Proof.
  intros Ht. revert cur. induction s as [|c s IH]; intros cur; simpl.
  - exists [], (rev cur). by apply split_go_no_sep.
  - destruct (Str.eqc c sep).
    + destruct (IH []) as (fields & w & ->).
      by exists (Str.of_chars (rev cur) :: fields), w.
    + apply IH.
Qed.

(** A component of four characters or more is appended as it is. *)
Lemma norm_step_long acc w t :
  (3 <= length t)%nat ->
  norm_step acc (Str.of_chars (w ++ t)) = acc ++ [Str.of_chars (w ++ t)].
Proof.
  intros Hlen. unfold norm_step.
  assert (Hne : forall x, (length (Str.chars x) < 3)%nat ->
                          String.eqb (Str.of_chars (w ++ t)) x = false).
  { intros x Hx. apply String.eqb_neq. intros E.
    rewrite <- E, chars_of_chars, length_app in Hx. lia. }
  rewrite !Hne by (simpl; lia). reflexivity.
Qed.

Lemma resolve_suffix base s t :
  forallb (fun c => negb (Str.eqc c "/")) (Str.chars t) = true ->
  (3 <= length (Str.chars t))%nat ->
  exists dir w,
    resolve base (s +:+ t) = dir ++ [Str.of_chars (w ++ Str.chars t)].
Proof.
  intros Ht Hlen. unfold resolve, Str.split. rewrite chars_app.
  destruct (split_go_suffix "/" [] (Str.chars s) (Str.chars t) Ht)
    as (fields & w & ->).
  rewrite fold_left_app. simpl. rewrite norm_step_long by exact Hlen.
  eauto.
Qed.

Lemma endswith_of_chars w t :
  Str.endswith (Str.of_chars (w ++ Str.chars t)) t = true.
Proof.
  unfold Str.endswith. rewrite chars_of_chars, rev_app_distr.
  induction (rev (Str.chars t)) as [|c l IH]; simpl; [reflexivity|].
  unfold Str.eqc. by rewrite Ascii.eqb_refl.
Qed.

(** X27: whatever the application name and the output directory are, the
    output file is an entry whose name ends with [.apk]; so it is never the
    debug key store, which step 4 deletes and rewrites. *)
Theorem output_file_is_an_apk env self :
  (exists dir file,
      final_apk self = Disk (dir ++ [file])
      /\ Str.endswith file ".apk" = true)
  /\ final_apk self <> debug_keystore env.
Proof.
  destruct (resolve_suffix (output_dir self) (app_name self) ".apk")
    as (dir & w & Hr); [reflexivity | simpl; lia |].
  assert (Hf : final_apk self
               = Disk (dir ++ [Str.of_chars (w ++ Str.chars ".apk")])).
  { rewrite final_apk_disk, Hr. reflexivity. }
  split.
  - exists dir, (Str.of_chars (w ++ Str.chars ".apk")).
    split; [exact Hf | apply endswith_of_chars].
  - rewrite Hf. unfold debug_keystore.
    change (Disk (home env) // ".android" // "debug.keystore")
      with (Disk ((home env ++ [".android"]) ++ ["debug.keystore"])).
    intros E. injection E as E.
    apply app_inj_tail in E as [_ E].
    assert (Hend : Str.endswith "debug.keystore" ".apk" = true)
      by (rewrite <- E; apply (endswith_of_chars w ".apk")).
    discriminate Hend.
Qed.
